(** * go-vapi: service registry and HTTP dispatcher ([services.go])

    A shallow embedding of [services.go] and a verification of the
    statements its specification makes about registration, lookup and
    dispatch.

    Conventions of the embedding:
    - a Go [string] is a Rocq [string] (a sequence of bytes);
    - a Go [rune] is a [Z];
    - a Go [map[string]*T] is a [gmap string T]; the [nil] entry a lookup
      of a missing key yields is [None];
    - the reply an [http.ResponseWriter] receives is the list of calls made
      on it, in order (a trace);
    - the parts of the Go standard library the file calls ([unicode/utf8],
      [unicode], [strings]) are modelled in modules of their own; the
      Unicode tables above ASCII are a parameter. *)

From Stdlib Require Import ZArith Lia Ascii String List Bool.
From stdpp Require Import base option list strings gmap fin_maps.

Local Open Scope string_scope.
Local Open Scope list_scope.
Local Open Scope Z_scope.

(** ** Bytes of a string *)

Definition byte_of (c : ascii) : Z := Z.of_N (N_of_ascii c).
Definition of_byte (b : Z) : ascii := ascii_of_N (Z.to_N (b mod 256)).

Definition bytes (s : string) : list Z := map byte_of (list_ascii_of_string s).
Definition of_bytes (l : list Z) : string := string_of_list_ascii (map of_byte l).

(** ** Package [unicode/utf8] *)

Module utf8.

Definition RuneError : Z := 0xFFFD.
Definition RuneSelf : Z := 0x80.
Definition MaxRune : Z := 0x10FFFF.

Definition surrogateMin : Z := 0xD800.
Definition surrogateMax : Z := 0xDFFF.

Definition t2 : Z := 0xC0.
Definition t3 : Z := 0xE0.
Definition t4 : Z := 0xF0.
Definition tx : Z := 0x80.

Definition maskx : Z := 0x3F.
Definition mask2 : Z := 0x1F.
Definition mask3 : Z := 0x0F.
Definition mask4 : Z := 0x07.

Definition rune1Max : Z := 0x7F.
Definition rune2Max : Z := 0x7FF.
Definition rune3Max : Z := 0xFFFF.

Definition locb : Z := 0x80.
Definition hicb : Z := 0xBF.

(* Entries of the table [first]. *)
Definition xx : Z := 0xF1.
Definition as_ : Z := 0xF0.
Definition s1 : Z := 0x02.
Definition s2 : Z := 0x13.
Definition s3 : Z := 0x03.
Definition s4 : Z := 0x23.
Definition s5 : Z := 0x34.
Definition s6 : Z := 0x04.
Definition s7 : Z := 0x44.

(** [first[b]]: information about the first byte of an encoding. *)
Definition first (b : Z) : Z :=
  if b <? 0x80 then as_
  else if b <? 0xC2 then xx
  else if b <? 0xE0 then s1
  else if b =? 0xE0 then s2
  else if b <? 0xED then s3
  else if b =? 0xED then s4
  else if b <? 0xF0 then s3
  else if b =? 0xF0 then s5
  else if b <? 0xF4 then s6
  else if b =? 0xF4 then s7
  else xx.

(** [acceptRanges[i]] as a pair [(lo, hi)]. *)
Definition acceptRanges (i : Z) : Z * Z :=
  if i =? 1 then (0xA0, hicb)
  else if i =? 2 then (locb, 0x9F)
  else if i =? 3 then (0x90, hicb)
  else if i =? 4 then (locb, 0x8F)
  else (locb, hicb).

Definition at_ (s : list Z) (i : nat) : Z := nth i s 0.

(** [DecodeRuneInString(s)]: the first rune of [s] and its width in bytes. *)
Definition DecodeRuneInString (s : list Z) : Z * nat :=
  let n := length s in
  if (n <? 1)%nat then (RuneError, 0%nat) else
  let s0 := at_ s 0 in
  let x := first s0 in
  if as_ <=? x then
    let mask := if Z.testbit x 0 then (-1) else 0 in
    (Z.lor (Z.land s0 (Z.lnot mask)) (Z.land RuneError mask), 1%nat)
  else
  let sz := Z.to_nat (Z.land x 7) in
  let accept := acceptRanges (Z.shiftr x 4) in
  if (n <? sz)%nat then (RuneError, 1%nat) else
  let s1 := at_ s 1 in
  if (s1 <? fst accept) || (snd accept <? s1) then (RuneError, 1%nat) else
  if (sz <=? 2)%nat then
    (Z.lor (Z.shiftl (Z.land s0 mask2) 6) (Z.land s1 maskx), 2%nat)
  else
  let s2 := at_ s 2 in
  if (s2 <? locb) || (hicb <? s2) then (RuneError, 1%nat) else
  if (sz <=? 3)%nat then
    (Z.lor (Z.lor (Z.shiftl (Z.land s0 mask3) 12) (Z.shiftl (Z.land s1 maskx) 6))
           (Z.land s2 maskx), 3%nat)
  else
  let s3 := at_ s 3 in
  if (s3 <? locb) || (hicb <? s3) then (RuneError, 1%nat) else
  (Z.lor (Z.lor (Z.lor (Z.shiftl (Z.land s0 mask4) 18) (Z.shiftl (Z.land s1 maskx) 12))
                (Z.shiftl (Z.land s2 maskx) 6))
         (Z.land s3 maskx), 4%nat).

(** [AppendRune(nil, r)] for [r >= 0]: the UTF-8 encoding of [r]. *)
Definition EncodeRune (r : Z) : list Z :=
  if r <=? rune1Max then [r]
  else if r <=? rune2Max then
    [Z.lor t2 (Z.shiftr r 6); Z.lor tx (Z.land r maskx)]
  else
    let r3 := if (MaxRune <? r) || ((surrogateMin <=? r) && (r <=? surrogateMax))
              then RuneError else r in
    if (MaxRune <? r) || ((surrogateMin <=? r) && (r <=? surrogateMax))
       || (r <=? rune3Max) then
      [Z.lor t3 (Z.shiftr r3 12); Z.lor tx (Z.land (Z.shiftr r3 6) maskx);
       Z.lor tx (Z.land r3 maskx)]
    else
      [Z.lor t4 (Z.shiftr r 18); Z.lor tx (Z.land (Z.shiftr r 12) maskx);
       Z.lor tx (Z.land (Z.shiftr r 6) maskx); Z.lor tx (Z.land r maskx)].

End utf8.

(** ** Package [unicode] *)

Module unicode.

Definition MaxASCII : Z := 0x7F.

(** The Unicode tables of the Go release the program is built with, for the
    runes above ASCII: membership in [Upper], [Letter], [Digit] and
    [White_Space], and the title-case mapping of [CaseRanges]. *)
Record Tables : Type := {
  Upper : Z -> bool;
  Letter : Z -> bool;
  Digit : Z -> bool;
  White_Space : Z -> bool;
  TitleCase : Z -> Z
}.

Definition between (lo hi r : Z) : bool := (lo <=? r) && (r <=? hi).

Definition IsUpper (U : Tables) (r : Z) : bool :=
  if r <=? MaxASCII then between 65 90 r else Upper U r.

Definition IsLetter (U : Tables) (r : Z) : bool :=
  if r <=? MaxASCII then between 65 90 r || between 97 122 r else Letter U r.

Definition IsDigit (U : Tables) (r : Z) : bool :=
  if r <=? MaxASCII then between 48 57 r else Digit U r.

Definition IsSpace (U : Tables) (r : Z) : bool :=
  if r <=? MaxASCII then between 9 13 r || (r =? 32) else White_Space U r.

Definition ToTitle (U : Tables) (r : Z) : Z :=
  if r <=? MaxASCII then (if between 97 122 r then r - (97 - 65) else r)
  else TitleCase U r.

End unicode.

(** ** Package [strings] *)

Module strings.

(** [Cut(s, sep)] for a one-byte separator: the text before and after the
    first occurrence of [sep], when there is one. *)
Fixpoint Cut (s : string) (sep : ascii) : option (string * string) :=
  match s with
  | EmptyString => None
  | String c s' =>
      if Ascii.eqb c sep then Some (EmptyString, s')
      else match Cut s' sep with
           | Some (before, after) => Some (String c before, after)
           | None => None
           end
  end.

(** [Contains(s, sep)] for a one-byte [sep]. *)
Definition Contains (s : string) (sep : ascii) : bool :=
  match Cut s sep with Some _ => true | None => false end.

(** [Split(s, sep)] for a one-byte [sep]: all the substrings between the
    occurrences of [sep]; one more than there are occurrences. *)
Fixpoint Split (s : string) (sep : ascii) : list string :=
  match s with
  | EmptyString => [EmptyString]
  | String c s' =>
      if Ascii.eqb c sep then EmptyString :: Split s' sep
      else match Split s' sep with
           | p :: ps => String c p :: ps
           | [] => [String c EmptyString]
           end
  end.

(** The loop of [genSplit] for [n > 0]: at most [n] substrings, the last one
    the unsplit remainder. *)
Fixpoint genSplit (s : string) (sep : ascii) (n : nat) : list string :=
  match n with
  | O => []
  | S O => [s]
  | S n' =>
      match Cut s sep with
      | Some (before, after) => before :: genSplit after sep n'
      | None => [s]
      end
  end.

(** [SplitN(s, sep, n)] for a one-byte [sep]. *)
Definition SplitN (s : string) (sep : ascii) (n : Z) : list string :=
  if n =? 0 then []
  else if n <? 0 then Split s sep
  else genSplit s sep (Z.to_nat n).

(** [Join(elems, sep)]. *)
Fixpoint Join (elems : list string) (sep : string) : string :=
  match elems with
  | [] => EmptyString
  | [e] => e
  | e :: rest => e +:+ sep +:+ Join rest sep
  end.

(** [HasSuffix(s, suffix)]. *)
Definition HasSuffix (s suffix : string) : bool :=
  (String.length suffix <=? String.length s)%nat &&
  String.eqb (substring (String.length s - String.length suffix)
                        (String.length suffix) s) suffix.

(** [isSeparator(r)]: whether [r] separates words. *)
Definition isSeparator (U : unicode.Tables) (r : Z) : bool :=
  if r <=? 0x7F then
    if unicode.between 48 57 r then false
    else if unicode.between 97 122 r then false
    else if unicode.between 65 90 r then false
    else if r =? 95 then false
    else true
  else if unicode.IsLetter U r || unicode.IsDigit U r then false
  else unicode.IsSpace U r.

(** [Map(mapping, s)] on the bytes of [s], for a mapping that carries a
    state from one rune to the next: every rune of [s] (an invalid byte is
    [RuneError], of width 1) is replaced by the encoding of its image, or
    dropped when the image is negative. [skip] counts the bytes of the
    current rune still to pass over. *)
Fixpoint Map_from {St : Type} (mapping : St -> Z -> St * Z) (skip : nat)
    (st : St) (s : list Z) : list Z :=
  match s with
  | [] => []
  | _ :: rest =>
      match skip with
      | S k => Map_from mapping k st rest
      | O =>
          let '(c, width) := utf8.DecodeRuneInString s in
          let '(st', r) := mapping st c in
          (if 0 <=? r then utf8.EncodeRune r else [])
            ++ Map_from mapping (width - 1) st' rest
      end
  end.

Definition Map {St : Type} (mapping : St -> Z -> St * Z) (st : St)
    (s : string) : string :=
  of_bytes (Map_from mapping 0 st (bytes s)).

(** [Title(s)]: the letters that begin words mapped to their title case.
    The state of the mapping is the previous rune, a space at first. *)
Definition Title (U : unicode.Tables) (s : string) : string :=
  Map (fun prev r => (r, if isSeparator U prev then unicode.ToTitle U r else r))
      32 s.

End strings.

(** ** Errors

    Every error [services.go] makes is [fmt.Errorf(format, a)] with one [%q]
    operand; it is kept as the format and the operand. [ErrorString] is an
    error made elsewhere (by a codec or by a service method). *)

Inductive error : Type :=
| Errorf (format : string) (a : string)
| ErrorString (msg : string).

(** ** Package [net/http] *)

Module http.

(** What the handlers and the codec read of a [*http.Request]: the verb
    [r.Method], the query parameter [r.URL.Query().Get("format")], the value
    the router stores in the request's context under the key ["method"] (the
    [:method] segment of the path), and the body. *)
Record Request : Type := {
  Method : string;
  format : string;
  ctx_method : string;
  body : string
}.

(** [r.WithContext(context.WithValue(r.Context(), "method", method))]. *)
Definition WithMethod (r : Request) (method : string) : Request :=
  {| Method := Method r; format := format r; ctx_method := method;
     body := body r |}.

End http.

(** ** Package [reflect] *)

Module reflect.

(** The kinds of types other than [Ptr]. *)
Inductive Kind : Type :=
| Invalid | Bool | Int | Int8 | Int16 | Int32 | Int64
| Uint | Uint8 | Uint16 | Uint32 | Uint64 | Uintptr
| Float32 | Float64 | Complex64 | Complex128
| Array | Chan | Func | Interface | Map | Slice | String | Struct
| UnsafePointer.

(** A [reflect.Type], as far as the program looks at it: whether its kind is
    [Ptr] (and then its element type), its [Name()] and its [PkgPath()].
    An unnamed type has the empty name and package path; a predeclared type
    has the empty package path. *)
Inductive rtype : Type :=
| PtrType (name pkgPath : string) (elem : rtype)
| BaseType (kind : Kind) (name pkgPath : string).

Definition isPtr (t : rtype) : bool :=
  match t with PtrType _ _ _ => true | BaseType _ _ _ => false end.

Definition Name (t : rtype) : string :=
  match t with PtrType n _ _ => n | BaseType _ n _ => n end.

Definition PkgPath (t : rtype) : string :=
  match t with PtrType _ p _ => p | BaseType _ _ p => p end.

(** [t.Elem()], which panics on a type that has no element. *)
Definition Elem (t : rtype) : option rtype :=
  match t with PtrType _ _ e => Some e | BaseType _ _ _ => None end.

(** [*T], the unnamed pointer type. *)
Definition PtrTo (t : rtype) : rtype := PtrType "" "" t.

(** A [reflect.Value]: its type, whether it is a nil pointer, and its
    contents (as text). *)
Record Value : Type := {
  Type_ : rtype;
  IsNil : bool;
  data : string
}.

(** [reflect.New(t)]: a pointer to a new zero value of type [t]. *)
Definition New (t : rtype) : Value :=
  {| Type_ := PtrTo t; IsNil := false; data := "" |}.

(** The type of a function: [In(i)] and [Out(i)]. *)
Record funcType : Type := {
  ins : list rtype;
  outs : list rtype
}.

Definition NumIn (ft : funcType) : Z := Z.of_nat (length (ins ft)).
Definition NumOut (ft : funcType) : Z := Z.of_nat (length (outs ft)).
Definition In (ft : funcType) (i : nat) : option rtype := ins ft !! i.
Definition Out (ft : funcType) (i : nat) : option rtype := outs ft !! i.

(** A [reflect.Method]. [MFunc] is [Func], the method as a function of the receiver,
    the request, the decoded arguments and the reply to fill in: it gives
    the reply as the method leaves it and the error the method returns. *)
Record Method : Type := {
  MName : string;
  MPkgPath : string;
  MType : funcType;
  MFunc : Value -> http.Request -> Value -> Value -> Value * option error
}.

(** A non-nil [interface{}] value: the value it holds and the method set of
    its dynamic type, in the order of [Type.Method(i)]. *)
Record Interface_ : Type := {
  dyn : Value;
  methodset : list Method
}.

Definition TypeOf (i : Interface_) : rtype := Type_ (dyn i).
Definition ValueOf (i : Interface_) : Value := dyn i.

(** [reflect.Indirect(v).Type()]: the type of what [v] points to when [v] is
    a pointer, of [v] itself otherwise; it panics ([None]) on a nil
    pointer, whose indirection is the zero [Value]. *)
Definition Indirect_Type (v : Value) : option rtype :=
  match Type_ v with
  | PtrType _ _ e => if IsNil v then None else Some e
  | BaseType _ _ _ => Some (Type_ v)
  end.

#[global] Instance Kind_eq_dec : EqDecision Kind.
Proof. solve_decision. Defined.

#[global] Instance rtype_eq_dec : EqDecision rtype.
Proof. solve_decision. Defined.

End reflect.

(** ** The registry: [serviceMap], [service], [serviceMethod] *)

Record serviceMethod : Type := {
  method : reflect.Method;
  argsType : reflect.rtype;
  replyType : reflect.rtype
}.

Record service : Type := {
  name : string;
  rcvr : reflect.Value;
  rcvrType : reflect.rtype;
  methods : gmap string serviceMethod
}.

(** [services] is [None] while the Go map is [nil] (before the first
    registration). The mutex is not modelled: calls are taken one at a
    time. *)
Record serviceMap : Type := {
  services : option (gmap string service)
}.

(** [new(serviceMap)]. *)
Definition new_serviceMap : serviceMap := {| services := None |}.

(** [m.services[key]]; reading a nil map finds nothing. *)
Definition lookup_service (m : serviceMap) (key : string) : option service :=
  match services m with
  | Some mp => mp !! key
  | None => None
  end.

(** The router of an [ApiServer] is not modelled. *)
Record ApiServer : Type := {
  as_services : serviceMap
}.

(** What a call that returns an [error] can do: return [nil], return an
    error, or panic. *)
Inductive outcome : Type :=
| Ok
| Err (e : error)
| Panic.

Definition typeOfError : reflect.rtype :=
  reflect.BaseType reflect.Interface "error" "".

Definition typeOfRequest : reflect.rtype :=
  reflect.BaseType reflect.Struct "Request" "net/http".

(** ** The reply of a handler *)

(** The two implementations of [codecServerResponseInterface]. *)
Inductive responser : Type :=
| serverResponseJSON
| serverResponseXML.

(** What a handler does, in order: the calls on the [http.ResponseWriter]
    ([WriteHeader], [Header().Set], [fmt.Fprint]), the lookups in the
    registry ([get]), the call of the service method, and the two requests
    to the codec to write the reply or an error. *)
Inductive event : Type :=
| WriteHeader (status : Z)
| HeaderSet (key value : string)
| Fprint (msg : string)
| RegistryGet (key : string)
| Call (svc : string) (mth : string) (args : reflect.Value)
| WriteResponse (c : responser) (reply : reflect.Value)
| WriteError (c : responser) (status : Z) (err : error).

(** The request side of the codec ([CodecRequest], defined in another file
    of the package): [Method()] and [ReadRequest(args)]. *)
Record CodecRequest : Type := {
  codec_Method : http.Request -> string * option error;
  codec_ReadRequest : http.Request -> reflect.Value -> reflect.Value * option error
}.

(** [WritePureError(w, status, msg)]. *)
Definition WritePureError (status : Z) (msg : string) : list event :=
  [WriteHeader status;
   HeaderSet "Content-Type" "text/plain; charset=utf-8";
   Fprint msg].

(** ** The functions of [services.go] *)

Section Vapi.

(** The Unicode tables, [Type.String()], the rendering of a format with one
    [%q] operand, and the codec. *)
Variable U : unicode.Tables.
Variable TypeString : reflect.rtype -> string.
Variable Sprintf : string -> string -> string.
Variable codec : CodecRequest.

(** [err.Error()]. *)
Definition Error (e : error) : string :=
  match e with
  | Errorf f a => Sprintf f a
  | ErrorString msg => msg
  end.

(** [isExported(name)]. *)
Definition isExported (name : string) : bool :=
  let '(runez, _) := utf8.DecodeRuneInString (bytes name) in
  unicode.IsUpper U runez.

(** The loop [for t.Kind() == reflect.Ptr { t = t.Elem() }]. *)
Fixpoint strip_pointers (t : reflect.rtype) : reflect.rtype :=
  match t with
  | reflect.PtrType _ _ e => strip_pointers e
  | reflect.BaseType _ _ _ => t
  end.

(** [isExportedOrBuiltin(t)]. *)
Definition isExportedOrBuiltin (t : reflect.rtype) : bool :=
  let t := strip_pointers t in
  isExported (reflect.Name t) || String.eqb (reflect.PkgPath t) "".

(** The body of the loop of [register] for one method: [None] where the
    source says [continue], the entry stored under [method.Name]
    otherwise. *)
Definition suitable (method : reflect.Method) : option serviceMethod :=
  let mtype := reflect.MType method in
  if negb (String.eqb (reflect.MPkgPath method) "") then None else
  if negb (reflect.NumIn mtype =? 4) then None else
  match reflect.In mtype 1, reflect.In mtype 2, reflect.In mtype 3 with
  | Some reqType, Some args, Some reply =>
      if negb (reflect.isPtr reqType)
         || negb (bool_decide (reflect.Elem reqType = Some typeOfRequest))
      then None else
      if negb (reflect.isPtr args) || negb (isExportedOrBuiltin args)
      then None else
      if negb (reflect.isPtr reply) || negb (isExportedOrBuiltin reply)
      then None else
      if negb (reflect.NumOut mtype =? 1) then None else
      if negb (bool_decide (reflect.Out mtype 0 = Some typeOfError))
      then None else
      match reflect.Elem args, reflect.Elem reply with
      | Some argsElem, Some replyElem =>
          Some {| method := method; argsType := argsElem; replyType := replyElem |}
      | _, _ => None
      end
  | _, _, _ => None
  end.

(** One turn of the loop of [register]: the method is stored under its name
    or passed over. *)
Definition keep (acc : gmap string serviceMethod) (mth : reflect.Method)
    : gmap string serviceMethod :=
  match suitable mth with
  | Some sm => <[reflect.MName mth := sm]> acc
  | None => acc
  end.

(** The loop of [register]: [s.methods] after the methods of the receiver
    have been gone through in order. *)
Definition collect (mset : list reflect.Method) : gmap string serviceMethod :=
  fold_left keep mset ∅.

(** [register(rcvr, name)]: the registry after the call and what the call
    returns. A nil [rcvr] makes the call panic before anything is stored
    (at [reflect.Indirect(s.rcvr).Type()] when [name] is empty, at
    [s.rcvrType.NumMethod()] otherwise). *)
Definition register (m : serviceMap) (rcvr : option reflect.Interface_)
    (name : string) : serviceMap * outcome :=
  match rcvr with
  | None => (m, Panic)
  | Some i =>
      let s_rcvr := reflect.ValueOf i in
      let s_rcvrType := reflect.TypeOf i in
      let named :=
        if String.eqb name "" then
          match reflect.Indirect_Type s_rcvr with
          | None => inr Panic
          | Some t =>
              let s_name := reflect.Name t in
              if negb (isExported s_name)
              then inr (Err (Errorf "api: type %q is not exported" s_name))
              else inl s_name
          end
        else inl name in
      match named with
      | inr out => (m, out)
      | inl s_name =>
          if String.eqb s_name "" then
            (m, Err (Errorf "api: no service name for type %q"
                            (TypeString s_rcvrType)))
          else
          let s_methods := collect (reflect.methodset i) in
          if (size s_methods =? 0)%nat then
            (m, Err (Errorf "api: %q has no exported methods of suitable type"
                            s_name))
          else
          let s := {| name := s_name; rcvr := s_rcvr; rcvrType := s_rcvrType;
                      methods := s_methods |} in
          match services m with
          | None => ({| services := Some (<[s_name := s]> ∅) |}, Ok)
          | Some mp =>
              match mp !! s_name with
              | Some _ =>
                  (m, Err (Errorf "api: service already defined: %q" s_name))
              | None => ({| services := Some (<[s_name := s]> mp) |}, Ok)
              end
          end
      end
  end.

(** [get(method)]. *)
Definition get (m : serviceMap) (method : string)
    : service * serviceMethod + error :=
  let parts := strings.Split method "." in
  if negb (length parts =? 2)%nat then
    inr (Errorf "api: service/method request ill-formed: %q" method)
  else
  match lookup_service m (nth 0 parts "") with
  | None => inr (Errorf "api: can't find service %q" method)
  | Some service =>
      match methods service !! nth 1 parts "" with
      | None => inr (Errorf "api: can't find method %q" method)
      | Some serviceMethod => inl (service, serviceMethod)
      end
  end.

(** [GetAll()]: the map itself. *)
Definition GetAll (m : serviceMap) : option (gmap string service) * outcome :=
  (services m, Ok).

(** [HasMethod(method)]. *)
Definition HasMethod (s : ApiServer) (method : string) : bool :=
  match get (as_services s) method with
  | inl _ => true
  | inr _ => false
  end.

(** [RegisterService(receiver, name)]. *)
Definition RegisterService (s : ApiServer) (receiver : option reflect.Interface_)
    (name : string) : ApiServer * outcome :=
  let '(m, out) := register (as_services s) receiver name in
  ({| as_services := m |}, out).

(** [ServeHTTP(w, r)]. *)
Definition ServeHTTP (s : ApiServer) (r : http.Request) : list event :=
  if negb (String.eqb (http.Method r) "POST")
     && negb (String.eqb (http.Method r) "GET") then
    WritePureError 405
      ("api: POST or GET method required, received " +:+ http.Method r)
  else
  let selectedCodec :=
    if strings.HasSuffix (http.format r) "xml" then serverResponseXML
    else serverResponseJSON in
  match codec_Method codec r with
  | (_, Some errMethod) => WritePureError 400 (Error errMethod)
  | (method_, None) =>
      RegistryGet method_ ::
      match get (as_services s) method_ with
      | inr errGet => [WriteError selectedCodec 400 errGet]
      | inl (serviceSpec, methodSpec) =>
          let args := reflect.New (argsType methodSpec) in
          match codec_ReadRequest codec r args with
          | (_, Some errRead) => [WriteError selectedCodec 400 errRead]
          | (args, None) =>
              let reply := reflect.New (replyType methodSpec) in
              let '(reply, errResult) :=
                reflect.MFunc (method methodSpec)
                  (rcvr serviceSpec) r args reply in
              Call (name serviceSpec) (reflect.MName (method methodSpec)) args ::
              HeaderSet "x-content-type-options" "nosniff" ::
              match errResult with
              | None => [WriteResponse selectedCodec reply]
              | Some e => [WriteError selectedCodec 400 e]
              end
          end
      end
  end.

(** The lines of [ApiHandler] that rewrite the identifier: the part after
    the first dot is title-cased. *)
Definition normalize (ctxMethod : string) : string :=
  let partsMethod := strings.SplitN ctxMethod "." 2 in
  let partsMethod := <[1%nat := strings.Title U (nth 1 partsMethod "")]> partsMethod in
  strings.Join partsMethod ".".

(** [ApiHandler(w, r)], with [Server] the server [Initialize] has made. *)
Definition ApiHandler (Server : ApiServer) (r : http.Request) : list event :=
  if negb (strings.Contains (http.ctx_method r) ".") then
    WritePureError 404 ("api: Method not found: " +:+ http.ctx_method r)
  else
  let partsMethod := strings.SplitN (http.ctx_method r) "." 2 in
  if (length partsMethod <? 2)%nat then
    WritePureError 404 ("api: Method not found: " +:+ http.ctx_method r)
  else
  let method := normalize (http.ctx_method r) in
  let r := http.WithMethod r method in
  RegistryGet method ::
  if negb (HasMethod Server method) then
    WritePureError 404 ("api: Method not found: " +:+ method)
  else ServeHTTP Server r.

End Vapi.

(** ** The operations on a registry, for sequences of them *)

Inductive op : Type :=
| OpRegister (rcvr : option reflect.Interface_) (name : string)
| OpGet (key : string)
| OpHasMethod (key : string)
| OpGetAll.

(** The registry after one operation: only [register] writes. *)
Definition step (U : unicode.Tables) (TypeString : reflect.rtype -> string)
    (m : serviceMap) (o : op) : serviceMap :=
  match o with
  | OpRegister rcvr name => fst (register U TypeString m rcvr name)
  | OpGet _ | OpHasMethod _ | OpGetAll => m
  end.

Definition run (U : unicode.Tables) (TypeString : reflect.rtype -> string)
    (ops : list op) (m : serviceMap) : serviceMap :=
  fold_left (step U TypeString) ops m.

(** ** Words of the specification *)

(** A string without a dot. *)
Definition no_dot (s : string) : Prop := strings.Contains s "." = false.

(** The name a service is stored under (lines 205 to 214 of the source):
    [name] when it is not empty, the name of the type of the receiver
    otherwise, when that is exported and not empty. *)
Definition service_name (U : unicode.Tables) (i : reflect.Interface_)
    (name : string) : option string :=
  if String.eqb name "" then
    match reflect.Indirect_Type (reflect.ValueOf i) with
    | Some t =>
        if isExported U (reflect.Name t) && negb (String.eqb (reflect.Name t) "")
        then Some (reflect.Name t) else None
    | None => None
    end
  else Some name.

(** A method fit for remote calls, in the words of the specification: it is
    exported; after the receiver it takes a pointer to [http.Request], a
    pointer to an exported or builtin type of arguments and a pointer to an
    exported or builtin type of reply; it returns one value, an [error]. *)
Definition Qualifies (U : unicode.Tables) (mth : reflect.Method) : Prop :=
  reflect.MPkgPath mth = "" /\
  exists recv reqType args reply a b,
    reflect.ins (reflect.MType mth) = [recv; reqType; args; reply] /\
    (reflect.isPtr reqType = true /\ reflect.Elem reqType = Some typeOfRequest) /\
    (reflect.isPtr args = true /\ reflect.Elem args = Some a /\
     isExportedOrBuiltin U a = true) /\
    (reflect.isPtr reply = true /\ reflect.Elem reply = Some b /\
     isExportedOrBuiltin U b = true) /\
    reflect.outs (reflect.MType mth) = [typeOfError].

(** The status codes a reply carries: those given to [WriteHeader] and those
    given to the codec with an error. *)
Definition status_of (e : event) : option Z :=
  match e with
  | WriteHeader st => Some st
  | WriteError _ st _ => Some st
  | _ => None
  end.

Definition statuses (t : list event) : list Z := omap status_of t.

(** The registry lookups of a reply. *)
Definition lookups (t : list event) : list string :=
  omap (fun e => match e with RegistryGet k => Some k | _ => None end) t.

Definition nosniff : event := HeaderSet "x-content-type-options" "nosniff".

(** The request reaches the call of the service method in [ServeHTTP]: the
    verb is GET or POST, the codec names a method, the method resolves and
    the arguments decode. *)
Definition invoked (codec : CodecRequest) (s : ApiServer) (r : http.Request)
    : Prop :=
  (http.Method r = "POST" \/ http.Method r = "GET") /\
  exists key svc sm args,
    codec_Method codec r = (key, None) /\
    get (as_services s) key = inl (svc, sm) /\
    codec_ReadRequest codec r (reflect.New (argsType sm)) = (args, None).

(** The errors of [get] and [register]. *)
Definition ill_formed (key : string) : error :=
  Errorf "api: service/method request ill-formed: %q" key.
Definition no_service (key : string) : error :=
  Errorf "api: can't find service %q" key.
Definition no_method (key : string) : error :=
  Errorf "api: can't find method %q" key.
Definition not_exported (tname : string) : error :=
  Errorf "api: type %q is not exported" tname.
Definition no_service_name (tstring : string) : error :=
  Errorf "api: no service name for type %q" tstring.
Definition no_methods (sname : string) : error :=
  Errorf "api: %q has no exported methods of suitable type" sname.
Definition already_defined (sname : string) : error :=
  Errorf "api: service already defined: %q" sname.

(** The entry [register] builds for the receiver [i] under the name [n], and
    the registry with an entry stored. *)
Definition entry (U : unicode.Tables) (i : reflect.Interface_) (n : string)
    : service :=
  {| name := n; rcvr := reflect.ValueOf i; rcvrType := reflect.TypeOf i;
     methods := collect U (reflect.methodset i) |}.

Definition store (m : serviceMap) (s : service) : serviceMap :=
  {| services := Some (<[name s := s]> (default ∅ (services m))) |}.

(** Exactly two parts, neither of them empty. *)
Definition two_nonempty_parts (key : string) : Prop :=
  exists a b, strings.Split key "." = [a; b] /\ a <> "" /\ b <> "".

(** The replies of the handlers to a method that is not found and to a verb
    that is not allowed, and the codec [ServeHTTP] selects. *)
Definition not_found (key : string) : list event :=
  WritePureError 404 ("api: Method not found: " +:+ key).

Definition verb_required (verb : string) : list event :=
  WritePureError 405 ("api: POST or GET method required, received " +:+ verb).

Definition selected (r : http.Request) : responser :=
  if strings.HasSuffix (http.format r) "xml" then serverResponseXML
  else serverResponseJSON.

(** ** A sample program *)

Module Sample.

(** Tables with no letter above ASCII. *)
Definition tables : unicode.Tables :=
  {| unicode.Upper := fun _ => false;
     unicode.Letter := fun _ => false;
     unicode.Digit := fun _ => false;
     unicode.White_Space := fun _ => false;
     unicode.TitleCase := fun r => r |}.

Definition quote : string := String (ascii_of_nat 34) EmptyString.

(** [format] with its first [%q] replaced by [a] between quotes. *)
Fixpoint sprintf (format a : string) : string :=
  match format with
  | String "%" (String "q" rest) => quote +:+ a +:+ quote +:+ rest
  | String c rest => String c (sprintf rest a)
  | EmptyString => EmptyString
  end.

Fixpoint typeString (t : reflect.rtype) : string :=
  match t with
  | reflect.PtrType EmptyString _ e => "*" +:+ typeString e
  | reflect.PtrType n _ _ => n
  | reflect.BaseType _ n _ => n
  end.

(** A codec that takes the method from the context of the request and the
    arguments from its body. *)
Definition codec : CodecRequest :=
  {| codec_Method := fun r => (http.ctx_method r, None);
     codec_ReadRequest := fun r args =>
       ({| reflect.Type_ := reflect.Type_ args; reflect.IsNil := false;
           reflect.data := http.body r |}, None) |}.

Definition EchoService : reflect.rtype :=
  reflect.BaseType reflect.Struct "EchoService" "main".
Definition EchoArgs : reflect.rtype :=
  reflect.BaseType reflect.Struct "EchoArgs" "main".
Definition EchoReply : reflect.rtype :=
  reflect.BaseType reflect.Struct "EchoReply" "main".
Definition int : reflect.rtype := reflect.BaseType reflect.Int "int" "".
Definition string_ : reflect.rtype := reflect.BaseType reflect.String "string" "".

Definition handlerType : reflect.funcType :=
  {| reflect.ins := [reflect.PtrTo EchoService; reflect.PtrTo typeOfRequest;
                     reflect.PtrTo EchoArgs; reflect.PtrTo EchoReply];
     reflect.outs := [typeOfError] |}.

(** [func (s *EchoService) Echo(r *http.Request, args *EchoArgs, reply
    *EchoReply) error], which copies the arguments into the reply. *)
Definition Echo : reflect.Method :=
  {| reflect.MName := "Echo"; reflect.MPkgPath := ""; reflect.MType := handlerType;
     reflect.MFunc := fun _ _ args reply =>
       ({| reflect.Type_ := reflect.Type_ reply; reflect.IsNil := false;
           reflect.data := reflect.data args |}, None) |}.

(** A method of the same type that fails. *)
Definition Fail : reflect.Method :=
  {| reflect.MName := "Fail"; reflect.MPkgPath := ""; reflect.MType := handlerType;
     reflect.MFunc := fun _ _ args reply =>
       ({| reflect.Type_ := reflect.Type_ reply; reflect.IsNil := false;
           reflect.data := "partial" |}, Some (ErrorString "boom")) |}.

(** [func (s *EchoService) Helper(n int) string]: not a handler. *)
Definition Helper : reflect.Method :=
  {| reflect.MName := "Helper"; reflect.MPkgPath := "";
     reflect.MType := {| reflect.ins := [reflect.PtrTo EchoService; int];
                         reflect.outs := [string_] |};
     reflect.MFunc := fun _ _ _ reply => (reply, None) |}.

(** [&EchoService{}]. *)
Definition receiver : reflect.Interface_ :=
  {| reflect.dyn := {| reflect.Type_ := reflect.PtrTo EchoService;
                       reflect.IsNil := false; reflect.data := "" |};
     reflect.methodset := [Echo; Fail; Helper] |}.

(** A receiver whose only method is not a handler. *)
Definition helper_only : reflect.Interface_ :=
  {| reflect.dyn := reflect.dyn receiver; reflect.methodset := [Helper] |}.

(** A value of the unexported type [echoService], without methods. *)
Definition unexported : reflect.Interface_ :=
  {| reflect.dyn := {| reflect.Type_ :=
                         reflect.BaseType reflect.Struct "echoService" "main";
                       reflect.IsNil := false; reflect.data := "" |};
     reflect.methodset := [] |}.

Definition empty : ApiServer := {| as_services := new_serviceMap |}.

(** The server after [RegisterService(&EchoService{}, "")]. *)
Definition server : ApiServer :=
  fst (RegisterService tables typeString empty (Some receiver) "").

Definition request (verb key : string) : http.Request :=
  {| http.Method := verb; http.format := ""; http.ctx_method := key;
     http.body := "{Value:x}" |}.

End Sample.


(** ** Further words, for the properties beyond the claims *)

(** [newApiServer(baseURL, middlewares...)], without its router: the
    registry is [new(serviceMap)]. *)
Definition newApiServer : ApiServer := {| as_services := new_serviceMap |}.

(** The number of services in the registry, [len(m.services)]. *)
Definition count_services (m : serviceMap) : nat :=
  size (default (∅ : gmap string service) (services m)).

(** What every entry of a registry satisfies: it is stored under its own
    name, which is not empty; it has at least one method; and every method
    it holds is stored under the name of the method and is what the loop of
    [register] makes of a qualifying method. *)
Definition entry_ok (U : unicode.Tables) (k : string) (s : service) : Prop :=
  name s = k /\ k <> "" /\ methods s <> ∅ /\
  forall mk sm, methods s !! mk = Some sm ->
    reflect.MName (method sm) = mk /\
    suitable U (method sm) = Some sm /\
    Qualifies U (method sm).

Definition registry_ok (U : unicode.Tables) (m : serviceMap) : Prop :=
  forall k s, lookup_service m k = Some s -> entry_ok U k s.

(** [n] levels of pointer to [t]. *)
Fixpoint pointers (n : nat) (t : reflect.rtype) : reflect.rtype :=
  match n with
  | O => t
  | S n' => reflect.PtrTo (pointers n' t)
  end.

(** The bytes of an ASCII identifier: digits, letters and the underscore. *)
Definition ident_byte (b : Z) : bool :=
  unicode.between 48 57 b || unicode.between 65 90 b
  || unicode.between 97 122 b || (b =? 95).

Definition ascii_ident (s : string) : bool := forallb ident_byte (bytes s).

(** The mapping [strings.Title] gives to [strings.Map]. *)
Definition title_mapping (U : unicode.Tables) (prev r : Z) : Z * Z :=
  (r, if strings.isSeparator U prev then unicode.ToTitle U r else r).

(** The responses written in a reply ([fmt.Fprint] and the two requests to
    the codec), and the calls of service methods. *)
Definition is_write (e : event) : bool :=
  match e with
  | Fprint _ | WriteResponse _ _ | WriteError _ _ _ => true
  | _ => false
  end.

Definition is_call (e : event) : bool :=
  match e with Call _ _ _ => true | _ => false end.

Definition writes (t : list event) : list event := List.filter is_write t.
Definition calls (t : list event) : list event := List.filter is_call t.

(** The headers a handler has set when the first thing is written to the
    [http.ResponseWriter] (by [WriteHeader], by [fmt.Fprint] or by the
    codec): the ones set later come after the header of the reply. *)
Fixpoint headers_before_write (t : list event) : list (string * string) :=
  match t with
  | [] => []
  | HeaderSet k v :: t' => (k, v) :: headers_before_write t'
  | WriteHeader _ :: _ | Fprint _ :: _
  | WriteResponse _ _ :: _ | WriteError _ _ _ :: _ => []
  | _ :: t' => headers_before_write t'
  end.

(** A codec that reads the name of the method from the context of the
    request, where [ApiHandler] has put it. *)
Definition reads_context (codec : CodecRequest) : Prop :=
  forall r, codec_Method codec r = (http.ctx_method r, None).

(** * Verification *)

(** ** Strings *)

Section StringFacts.

Variable sep : ascii.

Lemma Cut_spec (s a b : string) :
  strings.Cut s sep = Some (a, b) ->
  s = a +:+ String sep b /\ strings.Cut a sep = None.
Proof.
  revert a b. induction s as [|c s IH]; intros a b; simpl; [discriminate|].
  destruct (Ascii.eqb c sep) eqn:Hc.
  - apply Ascii.eqb_eq in Hc. subst c. intros [= <- <-]. split; reflexivity.
  - destruct (strings.Cut s sep) as [[a' b']|] eqn:Hcut; [|discriminate].
    intros [= <- <-]. destruct (IH a' b' eq_refl) as [-> Ha'].
    split; [reflexivity|]. simpl. rewrite Hc, Ha'. reflexivity.
Qed.

Lemma Cut_app (a b : string) :
  strings.Cut a sep = None ->
  strings.Cut (a +:+ String sep b) sep = Some (a, b).
Proof.
  induction a as [|c a IH]; simpl.
  - intros _. rewrite Ascii.eqb_refl. reflexivity.
  - destruct (Ascii.eqb c sep); [discriminate|].
    destruct (strings.Cut a sep) as [[]|]; [discriminate|].
    intros _. rewrite IH by reflexivity. reflexivity.
Qed.

Lemma Split_not_nil (s : string) : strings.Split s sep <> [].
Proof.
  destruct s as [|c s]; simpl; [discriminate|].
  destruct (Ascii.eqb c sep); [discriminate|].
  destruct (strings.Split s sep); discriminate.
Qed.

Lemma Split_no_sep (s : string) :
  strings.Cut s sep = None -> strings.Split s sep = [s].
Proof.
  induction s as [|c s IH]; simpl; [reflexivity|].
  destruct (Ascii.eqb c sep); [discriminate|].
  destruct (strings.Cut s sep) as [[]|]; [discriminate|].
  intros _. rewrite IH by reflexivity. reflexivity.
Qed.

Lemma Split_Cut (s a b : string) :
  strings.Cut s sep = Some (a, b) ->
  strings.Split s sep = a :: strings.Split b sep.
Proof.
  revert a b. induction s as [|c s IH]; intros a b; simpl; [discriminate|].
  destruct (Ascii.eqb c sep) eqn:Hc.
  - intros [= <- <-]. reflexivity.
  - destruct (strings.Cut s sep) as [[a' b']|] eqn:Hcut; [|discriminate].
    intros [= <- <-]. rewrite (IH a' b' eq_refl). reflexivity.
Qed.

(** One substring more than there are separators: exactly two substrings
    when, and only when, there is exactly one separator. *)
Lemma Split_two_iff (s : string) :
  length (strings.Split s sep) = 2%nat <->
  exists a b, s = a +:+ String sep b /\
              strings.Cut a sep = None /\ strings.Cut b sep = None.
Proof.
  split.
  - intros Hlen. destruct (strings.Cut s sep) as [[a b]|] eqn:Hcut.
    + exists a, b. destruct (Cut_spec _ _ _ Hcut) as [-> Ha].
      split; [reflexivity|]. split; [exact Ha|].
      rewrite (Split_Cut _ _ _ Hcut) in Hlen. simpl in Hlen.
      destruct (strings.Cut b sep) as [[a' b']|] eqn:Hb; [|reflexivity].
      rewrite (Split_Cut _ _ _ Hb) in Hlen. simpl in Hlen.
      pose proof (Split_not_nil b') as Hne.
      destruct (strings.Split b' sep); [congruence|simpl in Hlen; lia].
    + rewrite Split_no_sep in Hlen by assumption. discriminate.
  - intros (a & b & -> & Ha & Hb).
    rewrite (Split_Cut _ a b) by (apply Cut_app; assumption).
    rewrite Split_no_sep by assumption. reflexivity.
Qed.

Lemma Split_two (a b : string) :
  strings.Cut a sep = None -> strings.Cut b sep = None ->
  strings.Split (a +:+ String sep b) sep = [a; b].
Proof.
  intros Ha Hb. rewrite (Split_Cut _ a b) by (apply Cut_app; assumption).
  rewrite Split_no_sep by assumption. reflexivity.
Qed.

End StringFacts.

Lemma Contains_Cut (s : string) (sep : ascii) :
  strings.Contains s sep = true <-> exists a b, strings.Cut s sep = Some (a, b).
Proof.
  unfold strings.Contains. destruct (strings.Cut s sep) as [[a b]|].
  - split; [eauto|reflexivity].
  - split; [discriminate|]. intros (a & b & H). discriminate.
Qed.

Lemma no_dot_Cut (s : string) : no_dot s <-> strings.Cut s "." = None.
Proof.
  unfold no_dot, strings.Contains. destruct (strings.Cut s "."); split; congruence.
Qed.

(** The models of the library at work. *)

Example Split_three : strings.Split "Foo.Bar.Baz" "." = ["Foo"; "Bar"; "Baz"].
Proof. reflexivity. Qed.

Example Split_empty : strings.Split "" "." = [""].
Proof. reflexivity. Qed.

Example SplitN_two : strings.SplitN "Foo.Bar.Baz" "." 2 = ["Foo"; "Bar.Baz"].
Proof. reflexivity. Qed.

Example HasSuffix_xml : strings.HasSuffix "application/xml" "xml" = true.
Proof. reflexivity. Qed.

Example Decode_two_bytes : utf8.DecodeRuneInString [0xC3; 0xA9] = (0xE9, 2%nat).
Proof. reflexivity. Qed.

Example Decode_overlong : utf8.DecodeRuneInString [0xC0; 0x80] = (utf8.RuneError, 1%nat).
Proof. reflexivity. Qed.

Example Decode_surrogate :
  utf8.DecodeRuneInString [0xED; 0xA0; 0x80] = (utf8.RuneError, 1%nat).
Proof. reflexivity. Qed.

Example Decode_four_bytes :
  utf8.DecodeRuneInString [0xF0; 0x9F; 0x98; 0x80] = (0x1F600, 4%nat).
Proof. reflexivity. Qed.

Example Encode_four_bytes : utf8.EncodeRune 0x1F600 = [0xF0; 0x9F; 0x98; 0x80].
Proof. reflexivity. Qed.

Example Title_words (U : unicode.Tables) :
  strings.Title U "bar.baz qux_a" = "Bar.Baz Qux_a".
Proof. vm_compute. reflexivity. Qed.

(** ** Lookup *)

Section RegistryFacts.

Variable U : unicode.Tables.
Variable TypeString : reflect.rtype -> string.




(** [get] on a key with exactly one dot. *)
Lemma get_two_parts (m : serviceMap) (a b : string) :
  no_dot a -> no_dot b ->
  get m (a +:+ "." +:+ b) =
    match lookup_service m a with
    | None => inr (Errorf "api: can't find service %q" (a +:+ "." +:+ b))
    | Some svc =>
        match methods svc !! b with
        | None => inr (Errorf "api: can't find method %q" (a +:+ "." +:+ b))
        | Some sm => inl (svc, sm)
        end
    end.
Proof.
  intros Ha%no_dot_Cut Hb%no_dot_Cut. unfold get.
  change (a +:+ "." +:+ b) with (a +:+ String "." b).
  rewrite Split_two by assumption. reflexivity.
Qed.

Lemma get_ill_formed_iff (m : serviceMap) (key : string) :
  get m key = inr (ill_formed key) <-> length (strings.Split key ".") <> 2%nat.
Proof.
  unfold get, ill_formed.
  destruct (Nat.eqb_spec (length (strings.Split key ".")) 2) as [He|Hne]; simpl.
  - split; [|intros H; exfalso; exact (H He)].
    destruct (lookup_service m _) as [svc|]; [|discriminate].
    destruct (methods svc !! _); discriminate.
  - split; [intros _; exact Hne|reflexivity].
Qed.

(** [get] reads the registry through [lookup_service] only. *)
Lemma get_ext (m m' : serviceMap) (key : string) :
  (forall k, lookup_service m k = lookup_service m' k) ->
  get m key = get m' key.
Proof. intros H. unfold get. rewrite H. reflexivity. Qed.

End RegistryFacts.
Section RegisterFacts.

Variable U : unicode.Tables.
Variable TypeString : reflect.rtype -> string.

Lemma lookup_store (m : serviceMap) (s : service) (k : string) :
  lookup_service (store m s) k =
    if decide (name s = k) then Some s else lookup_service m k.
Proof.
  unfold lookup_service, store; simpl. rewrite lookup_insert.
  destruct (decide (name s = k)); [reflexivity|].
  destruct (services m); [reflexivity|apply lookup_empty].
Qed.

(** [register] once the name of the service is known. *)
Lemma register_named (m : serviceMap) (i : reflect.Interface_) (nm n : string) :
  service_name U i nm = Some n ->
  register U TypeString m (Some i) nm =
    if (size (collect U (reflect.methodset i)) =? 0)%nat
    then (m, Err (no_methods n))
    else match lookup_service m n with
         | Some _ => (m, Err (already_defined n))
         | None => (store m (entry U i n), Ok)
         end.
Proof.
  unfold service_name, register. intros Hn.
  assert (Hlater : forall n,
    String.eqb n "" = false ->
    (if String.eqb n "" then
       (m, Err (Errorf "api: no service name for type %q"
                  (TypeString (reflect.TypeOf i))))
     else if (size (collect U (reflect.methodset i)) =? 0)%nat
     then (m, Err (Errorf "api: %q has no exported methods of suitable type" n))
     else match services m with
          | None => ({| services := Some (<[n := entry U i n]> ∅) |}, Ok)
          | Some mp =>
              match mp !! n with
              | Some _ => (m, Err (Errorf "api: service already defined: %q" n))
              | None => ({| services := Some (<[n := entry U i n]> mp) |}, Ok)
              end
          end) =
    if (size (collect U (reflect.methodset i)) =? 0)%nat
    then (m, Err (no_methods n))
    else match lookup_service m n with
         | Some _ => (m, Err (already_defined n))
         | None => (store m (entry U i n), Ok)
         end).
  { intros n0 ->. destruct (size _ =? 0)%nat; [reflexivity|].
    unfold lookup_service, store. destruct (services m) as [mp|]; simpl.
    - destruct (mp !! n0); reflexivity.
    - reflexivity. }
  destruct (String.eqb nm "") eqn:Hnm.
  - destruct (reflect.Indirect_Type (reflect.ValueOf i)) as [t|]; [|discriminate].
    destruct (isExported U (reflect.Name t)); simpl in Hn; [|discriminate].
    destruct (String.eqb (reflect.Name t) "") eqn:Ht; simpl in Hn; [discriminate|].
    injection Hn as <-. cbn [negb]. cbv iota. rewrite <- (Hlater _ Ht). rewrite Ht. reflexivity.
  - injection Hn as <-. apply Hlater. exact Hnm.
Qed.

(** [register] when the name checks fail: nothing is stored. *)
Lemma register_unnamed (m : serviceMap) (i : reflect.Interface_) (nm : string) :
  service_name U i nm = None ->
  fst (register U TypeString m (Some i) nm) = m /\
  nm = "" /\
  match reflect.Indirect_Type (reflect.ValueOf i) with
  | None => snd (register U TypeString m (Some i) nm) = Panic
  | Some t =>
      if isExported U (reflect.Name t)
      then reflect.Name t = "" /\
           snd (register U TypeString m (Some i) nm) =
             Err (no_service_name (TypeString (reflect.TypeOf i)))
      else snd (register U TypeString m (Some i) nm) =
             Err (not_exported (reflect.Name t))
  end.
Proof.
  unfold service_name, register. intros Hn.
  destruct (String.eqb nm "") eqn:Hnm; [|discriminate].
  apply String.eqb_eq in Hnm.
  destruct (reflect.Indirect_Type (reflect.ValueOf i)) as [t|]; [|auto].
  destruct (isExported U (reflect.Name t)); simpl in *; [|auto].
  destruct (String.eqb (reflect.Name t) "") eqn:Ht; simpl in *; [|discriminate].
  apply String.eqb_eq in Ht. auto.
Qed.

(** A failed registration leaves the registry as it was. *)
Lemma register_failed (m : serviceMap) (rcvr : option reflect.Interface_)
    (nm : string) :
  snd (register U TypeString m rcvr nm) <> Ok ->
  fst (register U TypeString m rcvr nm) = m.
Proof.
  destruct rcvr as [i|]; [|reflexivity].
  destruct (service_name U i nm) as [n|] eqn:Hn.
  - rewrite (register_named _ _ _ _ Hn).
    destruct (size _ =? 0)%nat; [reflexivity|].
    destruct (lookup_service m n); [reflexivity|]. simpl. congruence.
  - intros _. apply (register_unnamed _ _ _ Hn).
Qed.

(** A registration that succeeds stores the entry under a free name. *)
Lemma register_Ok (m m' : serviceMap) (rcvr : option reflect.Interface_)
    (nm : string) :
  register U TypeString m rcvr nm = (m', Ok) ->
  exists i n, rcvr = Some i /\ service_name U i nm = Some n /\
              lookup_service m n = None /\
              size (collect U (reflect.methodset i)) <> 0%nat /\
              m' = store m (entry U i n).
Proof.
  destruct rcvr as [i|]; [|discriminate].
  destruct (service_name U i nm) as [n|] eqn:Hn.
  - rewrite (register_named _ _ _ _ Hn).
    destruct (Nat.eqb_spec (size (collect U (reflect.methodset i))) 0);
      [discriminate|].
    destruct (lookup_service m n) eqn:Hl; [discriminate|].
    intros [= <-]. exists i, n. auto.
  - intros H. exfalso.
    destruct (register_unnamed m i nm Hn) as (_ & _ & Hout).
    rewrite H in Hout. simpl in Hout.
    destruct (reflect.Indirect_Type _); [|discriminate].
    destruct (isExported U _); [destruct Hout|]; discriminate.
Qed.

(** Registration never removes or replaces an entry. *)
Lemma register_preserves (m : serviceMap) (rcvr : option reflect.Interface_)
    (nm k : string) (s : service) :
  lookup_service m k = Some s ->
  lookup_service (fst (register U TypeString m rcvr nm)) k = Some s.
Proof.
  intros Hk. destruct (register U TypeString m rcvr nm) as [m' out] eqn:Hr.
  destruct out; simpl;
    try (replace m' with (fst (register U TypeString m rcvr nm))
           by (rewrite Hr; reflexivity);
         rewrite register_failed by (rewrite Hr; simpl; congruence);
         exact Hk).
  destruct (register_Ok _ _ _ _ Hr) as (i & n & _ & _ & Hfree & _ & ->).
  rewrite lookup_store. simpl. destruct (decide (n = k)) as [->|]; [congruence|].
  exact Hk.
Qed.

Lemma run_preserves (ops : list op) (m : serviceMap) (k : string) (s : service) :
  lookup_service m k = Some s ->
  lookup_service (run U TypeString ops m) k = Some s.
Proof.
  revert m. induction ops as [|o ops IH]; intros m Hk; [exact Hk|].
  simpl. apply IH. destruct o; simpl; auto using register_preserves.
Qed.

End RegisterFacts.

(** ** The methods of a service *)

Section MethodFacts.

Variable U : unicode.Tables.

(** A pointer to a type is exported or builtin when the type is. *)
Lemma isExportedOrBuiltin_pointer (t e : reflect.rtype) :
  reflect.isPtr t = true -> reflect.Elem t = Some e ->
  isExportedOrBuiltin U t = isExportedOrBuiltin U e.
Proof. destruct t; simpl; [|discriminate]. intros _ [= ->]. reflexivity. Qed.

Lemma isPtr_Elem (t : reflect.rtype) :
  reflect.isPtr t = true -> exists e, reflect.Elem t = Some e.
Proof. destruct t; simpl; [eauto|discriminate]. Qed.

(** What [suitable] keeps of a method. *)
Lemma suitable_Some (mth : reflect.Method) (sm : serviceMethod) :
  suitable U mth = Some sm ->
  method sm = mth /\
  exists args reply,
    reflect.In (reflect.MType mth) 2 = Some args /\
    reflect.In (reflect.MType mth) 3 = Some reply /\
    reflect.Elem args = Some (argsType sm) /\
    reflect.Elem reply = Some (replyType sm).
Proof.
  unfold suitable.
  destruct (negb (String.eqb _ "")); [discriminate|].
  destruct (negb (reflect.NumIn _ =? 4)); [discriminate|].
  destruct (reflect.In _ 1) as [reqType|]; [|discriminate].
  destruct (reflect.In _ 2) as [args|]; [|discriminate].
  destruct (reflect.In _ 3) as [reply|]; [|discriminate].
  destruct (_ || _); [discriminate|].
  destruct (_ || _); [discriminate|].
  destruct (_ || _); [discriminate|].
  destruct (negb _); [discriminate|].
  destruct (negb _); [discriminate|].
  destruct (reflect.Elem args) as [a|] eqn:Ha; [|discriminate].
  destruct (reflect.Elem reply) as [b|] eqn:Hb; [|discriminate].
  intros [= <-]. simpl. eauto 10.
Qed.

(** The check of the loop is the rule of the specification. *)
Lemma suitable_iff_Qualifies (mth : reflect.Method) :
  is_Some (suitable U mth) <-> Qualifies U mth.
Proof.
  unfold suitable, Qualifies, reflect.NumIn, reflect.NumOut, reflect.In,
    reflect.Out.
  destruct mth as [mname mpkg [ins outs] f]; simpl. split.
  - intros [sm Hsm].
    destruct (String.eqb_spec mpkg "") as [->|]; simpl in Hsm; [|discriminate].
    split; [reflexivity|].
    destruct (Z.eqb_spec (Z.of_nat (length ins)) 4) as [Hins|]; simpl in Hsm;
      [|discriminate].
    destruct ins as [|recv [|reqType [|args [|reply [|]]]]];
      simpl in Hins; try lia. simpl in Hsm.
    destruct (reflect.isPtr reqType) eqn:Hp1; simpl in Hsm; [|discriminate].
    destruct (bool_decide (reflect.Elem reqType = Some typeOfRequest)) eqn:He1;
      simpl in Hsm; [apply bool_decide_eq_true in He1|discriminate].
    destruct (reflect.isPtr args) eqn:Hp2; simpl in Hsm; [|discriminate].
    destruct (isExportedOrBuiltin U args) eqn:Hx2; simpl in Hsm; [|discriminate].
    destruct (reflect.isPtr reply) eqn:Hp3; simpl in Hsm; [|discriminate].
    destruct (isExportedOrBuiltin U reply) eqn:Hx3; simpl in Hsm; [|discriminate].
    destruct (Z.eqb_spec (Z.of_nat (length outs)) 1) as [Houts|]; simpl in Hsm;
      [|discriminate].
    destruct outs as [|o [|]]; simpl in Houts; try lia. simpl in Hsm.
    destruct (bool_decide (Some o = Some typeOfError)) eqn:Ho;
      simpl in Hsm; [apply bool_decide_eq_true in Ho|discriminate].
    injection Ho as ->.
    destruct (isPtr_Elem _ Hp2) as [a Ha]. destruct (isPtr_Elem _ Hp3) as [b Hb].
    exists recv, reqType, args, reply, a, b.
    rewrite <- (isExportedOrBuiltin_pointer args a),
            <- (isExportedOrBuiltin_pointer reply b) by assumption.
    repeat split; assumption.
  - intros (-> & recv & reqType & args & reply & a & b & -> & [Hp1 He1]
            & (Hp2 & Ha & Hx2) & (Hp3 & Hb & Hx3) & ->).
    simpl. rewrite Hp1, Hp2, Hp3, Ha, Hb.
    rewrite (isExportedOrBuiltin_pointer args a),
            (isExportedOrBuiltin_pointer reply b), Hx2, Hx3 by assumption.
    rewrite !bool_decide_eq_true_2 by (assumption || reflexivity).
    simpl. eauto.
Qed.


Lemma fold_keep_other (mset : list reflect.Method)
    (acc : gmap string serviceMethod) (k : string) :
  k ∉ reflect.MName <$> mset ->
  fold_left (keep U) mset acc !! k = acc !! k.
Proof.
  revert acc. induction mset as [|x mset IH]; intros acc Hk; [reflexivity|].
  rewrite fmap_cons, not_elem_of_cons in Hk. destruct Hk as [Hx Hk].
  simpl. rewrite IH by assumption. unfold keep.
  destruct (suitable U x); [|reflexivity].
  apply lookup_insert_ne. congruence.
Qed.

(** Every stored entry comes from a method that passed the check. *)
Lemma fold_keep_Some (mset : list reflect.Method)
    (acc : gmap string serviceMethod) (k : string) (sm : serviceMethod) :
  fold_left (keep U) mset acc !! k = Some sm ->
  acc !! k = Some sm \/
  exists mth, mth ∈ mset /\ reflect.MName mth = k /\ suitable U mth = Some sm.
Proof.
  revert acc. induction mset as [|x mset IH]; intros acc; simpl; [auto|].
  intros H. destruct (IH _ H) as [Hacc|(mth & Hin & Hk & Hs)].
  - unfold keep in Hacc. destruct (suitable U x) as [smx|] eqn:Hx; [|auto].
    rewrite lookup_insert in Hacc. destruct (decide (reflect.MName x = k)).
    + right. exists x. split; [left|]. split; congruence.
    + auto.
  - right. exists mth. split; [right; exact Hin|auto].
Qed.

Lemma NoDup_fmap_inj {A B : Type} (f : A -> B) (l : list A) (x y : A) :
  NoDup (f <$> l) -> x ∈ l -> y ∈ l -> f x = f y -> x = y.
Proof.
  induction l as [|a l IH]; intros Hnd Hx Hy Hf.
  - inversion Hx.
  - rewrite fmap_cons in Hnd. apply NoDup_cons in Hnd as [Ha Hnd].
    apply elem_of_cons in Hx as [->|Hx]; apply elem_of_cons in Hy as [->|Hy].
    + reflexivity.
    + exfalso. apply Ha. rewrite Hf. apply list_elem_of_fmap_2. exact Hy.
    + exfalso. apply Ha. rewrite <- Hf. apply list_elem_of_fmap_2. exact Hx.
    + auto.
Qed.

(** With the names of the methods distinct, what is stored under the name
    of a method is what the check says of that method. *)
Lemma collect_lookup (mset : list reflect.Method) (mth : reflect.Method) :
  NoDup (reflect.MName <$> mset) -> mth ∈ mset ->
  collect U mset !! reflect.MName mth = suitable U mth.
Proof.
  intros Hnd Hin. unfold collect.
  destruct (fold_left (keep U) mset ∅ !! reflect.MName mth) as [sm|] eqn:Hl.
  - apply fold_keep_Some in Hl as [Hl|(mth' & Hin' & Hk & Hs)].
    + rewrite lookup_empty in Hl. discriminate.
    + rewrite (NoDup_fmap_inj _ _ _ _ Hnd Hin Hin' (eq_sym Hk)). congruence.
  - destruct (suitable U mth) as [sm|] eqn:Hs; [|reflexivity].
    exfalso. revert Hl. generalize (∅ : gmap string serviceMethod).
    induction mset as [|x mset IH]; intros acc; [inversion Hin|].
    rewrite fmap_cons in Hnd. apply NoDup_cons in Hnd as [Hx Hnd].
    simpl. apply elem_of_cons in Hin as [->|Hin].
    + rewrite fold_keep_other by assumption. unfold keep. rewrite Hs.
      rewrite lookup_insert_eq. discriminate.
    + apply IH; assumption.
Qed.

Lemma collect_Some (mset : list reflect.Method) (k : string) (sm : serviceMethod) :
  collect U mset !! k = Some sm ->
  exists mth, mth ∈ mset /\ reflect.MName mth = k /\ suitable U mth = Some sm.
Proof.
  unfold collect. intros H.
  apply fold_keep_Some in H as [H|H]; [|exact H].
  rewrite lookup_empty in H. discriminate.
Qed.

Lemma fold_keep_mono (mset : list reflect.Method)
    (acc : gmap string serviceMethod) (k : string) :
  is_Some (acc !! k) -> is_Some (fold_left (keep U) mset acc !! k).
Proof.
  revert acc. induction mset as [|x mset IH]; intros acc Hk; [exact Hk|].
  simpl. apply IH. unfold keep. destruct (suitable U x); [|exact Hk].
  rewrite lookup_insert. destruct (decide (reflect.MName x = k)); eauto.
Qed.

(** A method that passes the check always leaves an entry under its name. *)
Lemma collect_is_Some (mset : list reflect.Method) (mth : reflect.Method) :
  mth ∈ mset -> is_Some (suitable U mth) ->
  is_Some (collect U mset !! reflect.MName mth).
Proof.
  unfold collect. generalize (∅ : gmap string serviceMethod).
  induction mset as [|x mset IH]; intros acc Hin Hs; [inversion Hin|].
  simpl. apply elem_of_cons in Hin as [->|Hin]; [|auto].
  apply fold_keep_mono. unfold keep. destruct Hs as [sm ->].
  rewrite lookup_insert_eq. eauto.
Qed.

(** Nothing is stored exactly when no method passes the check. *)
Lemma collect_empty_iff (mset : list reflect.Method) :
  size (collect U mset) = 0%nat <->
  forall mth, mth ∈ mset -> suitable U mth = None.
Proof.
  rewrite map_size_empty_iff. split.
  - intros He mth Hin. destruct (suitable U mth) as [sm|] eqn:Hs; [|reflexivity].
    destruct (collect_is_Some mset mth Hin) as [sm' Hsm']; [eauto|].
    rewrite He, lookup_empty in Hsm'. discriminate.
  - intros Hall. apply map_eq. intros k. rewrite lookup_empty.
    destruct (collect U mset !! k) as [sm|] eqn:Hk; [|reflexivity].
    apply collect_Some in Hk as (mth & Hin & _ & Hs).
    rewrite (Hall mth Hin) in Hs. discriminate.
Qed.


End MethodFacts.

Section RegistrationClaims.

Variable U : unicode.Tables.
Variable TypeString : reflect.rtype -> string.




End RegistrationClaims.


Section RegistryClaims.

Variable U : unicode.Tables.
Variable TypeString : reflect.rtype -> string.


(** C9, as amended. [HasMethod] is [get] without its error. After a service
    is registered under the name [n] with a qualifying method [mth], and
    neither [n] nor the name of the method has a dot in it,
    [HasMethod("n.mth")] is true at once and after any further operations
    on the registry. *)
Theorem HasMethod_after_register
    (m m' : serviceMap) (i : reflect.Interface_) (nm : string)
    (mth : reflect.Method) (ops : list op) :
  (forall s key, HasMethod s key = true <->
                 exists svc sm, get (as_services s) key = inl (svc, sm)) /\
  (register U TypeString m (Some i) nm = (m', Ok) ->
   mth ∈ reflect.methodset i -> Qualifies U mth ->
   exists n,
     service_name U i nm = Some n /\
     (no_dot n -> no_dot (reflect.MName mth) ->
      HasMethod {| as_services := m' |} (n +:+ "." +:+ reflect.MName mth) = true /\
      HasMethod {| as_services := run U TypeString ops m' |}
                (n +:+ "." +:+ reflect.MName mth) = true)).
Proof.
  split.
  - intros s key. unfold HasMethod.
    destruct (get (as_services s) key) as [[svc sm]|e].
    + split; [eauto|reflexivity].
    + split; [discriminate|]. intros (svc & sm & H). discriminate.
  - intros Hr Hin Hq.
    destruct (register_Ok _ _ _ _ _ _ Hr) as (i0 & n & [= <-] & Hn & _ & _ & ->).
    exists n. split; [exact Hn|]. intros Hdn Hdm.
    assert (Hl : lookup_service (store m (entry U i n)) n = Some (entry U i n))
      by (rewrite lookup_store; simpl; rewrite decide_True; reflexivity).
    destruct (collect_is_Some U (reflect.methodset i) mth Hin) as [sm Hsm];
      [apply suitable_iff_Qualifies; exact Hq|].
    unfold HasMethod; simpl. rewrite !get_two_parts by assumption.
    rewrite (run_preserves U TypeString ops _ _ _ Hl), Hl. simpl.
    rewrite Hsm. split; reflexivity.
Qed.

(** C10. [register] never returns the error "no service name for type":
    [isExported] is false of the empty string (the rune decoded from it is
    [RuneError], which is not an upper case letter), so an empty name taken
    from the type is refused as not exported, and a name given by the caller
    is kept as it is. *)
Theorem register_never_no_service_name
    (HRuneError : unicode.IsUpper U utf8.RuneError = false) :
  isExported U "" = false /\
  (forall i nm, nm <> "" -> service_name U i nm = Some nm) /\
  forall m rcvr nm t,
    snd (register U TypeString m rcvr nm) <> Err (no_service_name t).
Proof.
  assert (He : isExported U "" = false) by exact HRuneError.
  split; [exact He|]. split.
  - intros i nm Hnm. unfold service_name.
    destruct (String.eqb_spec nm ""); [contradiction|reflexivity].
  - intros m [i|] nm t; [|discriminate].
    destruct (service_name U i nm) as [n|] eqn:Hn.
    + rewrite (register_named _ _ _ _ _ _ Hn).
      destruct (size _ =? 0)%nat; [discriminate|].
      destruct (lookup_service m n); discriminate.
    + destruct (register_unnamed U TypeString m i nm Hn) as (_ & _ & Hout).
      destruct (reflect.Indirect_Type _) as [ty|]; [|rewrite Hout; discriminate].
      destruct (isExported U (reflect.Name ty)) eqn:Hx.
      * destruct Hout as [Hempty _]. rewrite Hempty in Hx. congruence.
      * rewrite Hout. discriminate.
Qed.

End RegistryClaims.

(** C3, as amended. [get] returns the "ill-formed" error exactly when
    splitting the key on dots does not give exactly two parts, that is
    unless the key has exactly one dot; the parts may be empty. A key with an
    empty part, such as "Foo." or ".Bar", goes on to the lookups and is
    reported as a service or a method that cannot be found (or resolved, were
    a service or a method stored under the empty name). *)
Theorem get_ill_formed_iff_not_two_parts (m : serviceMap) (key : string) :
  (get m key = inr (ill_formed key) <-> length (strings.Split key ".") <> 2%nat) /\
  (length (strings.Split key ".") = 2%nat <->
   exists a b, key = a +:+ "." +:+ b /\ no_dot a /\ no_dot b) /\
  get m "Foo." =
    match lookup_service m "Foo" with
    | None => inr (no_service "Foo.")
    | Some svc =>
        match methods svc !! "" with
        | None => inr (no_method "Foo.")
        | Some sm => inl (svc, sm)
        end
    end /\
  get m ".Bar" =
    match lookup_service m "" with
    | None => inr (no_service ".Bar")
    | Some svc =>
        match methods svc !! "Bar" with
        | None => inr (no_method ".Bar")
        | Some sm => inl (svc, sm)
        end
    end.
Proof.
  split; [apply get_ill_formed_iff|]. split; [|split; reflexivity].
  rewrite Split_two_iff. split.
  - intros (a & b & -> & Ha & Hb). exists a, b. rewrite !no_dot_Cut. auto.
  - intros (a & b & -> & Ha & Hb). exists a, b. rewrite <- !no_dot_Cut. auto.
Qed.

(** The claim C3 as it was stated fails on "Foo.": the key does not split
    into two non-empty parts, and [get] reports a service it cannot find. *)
Lemma get_empty_part_is_not_ill_formed :
  get new_serviceMap "Foo." = inr (no_service "Foo.") /\
  ~ (get new_serviceMap "Foo." = inr (ill_formed "Foo.") <->
     ~ two_nonempty_parts "Foo.").
Proof.
  split; [reflexivity|]. intros [_ H].
  assert (Hne : ~ two_nonempty_parts "Foo.").
  { intros (a & b & Hs & _ & Hb). vm_compute in Hs. injection Hs as _ <-.
    apply Hb. reflexivity. }
  specialize (H Hne). vm_compute in H. discriminate.
Qed.

(** The claim C9 as it was stated fails for a service name with a dot in
    it: the registration succeeds and the method cannot be found. *)
Lemma HasMethod_fails_for_dotted_service_name :
  snd (register Sample.tables Sample.typeString new_serviceMap
         (Some Sample.receiver) "v1.Echo") = Ok /\
  Sample.Echo ∈ reflect.methodset Sample.receiver /\
  Qualifies Sample.tables Sample.Echo /\
  HasMethod
    {| as_services :=
         fst (register Sample.tables Sample.typeString new_serviceMap
                (Some Sample.receiver) "v1.Echo") |}
    ("v1.Echo" +:+ "." +:+ reflect.MName Sample.Echo) = false.
Proof.
  split; [vm_compute; reflexivity|]. split; [left|].
  split; [apply suitable_iff_Qualifies; vm_compute; eauto|].
  vm_compute. reflexivity.
Qed.


(** The sample service stays reachable after further registrations. *)
Lemma HasMethod_after_register_witness :
  register Sample.tables Sample.typeString new_serviceMap (Some Sample.receiver) ""
    = (as_services Sample.server, Ok) /\
  Sample.Echo ∈ reflect.methodset Sample.receiver /\
  Qualifies Sample.tables Sample.Echo /\
  no_dot "EchoService" /\ no_dot "Echo" /\
  HasMethod Sample.server "EchoService.Echo" = true /\
  HasMethod
    {| as_services :=
         run Sample.tables Sample.typeString
           [OpRegister (Some Sample.receiver) "Other"; OpGetAll;
            OpRegister (Some Sample.receiver) ""; OpRegister None "x"]
           (as_services Sample.server) |}
    "EchoService.Echo" = true.
Proof.
  assert (Hr : register Sample.tables Sample.typeString new_serviceMap
                 (Some Sample.receiver) "" = (as_services Sample.server, Ok))
    by (vm_compute; reflexivity).
  assert (Hin : Sample.Echo ∈ reflect.methodset Sample.receiver) by left.
  assert (Hq : Qualifies Sample.tables Sample.Echo)
    by (apply suitable_iff_Qualifies; vm_compute; eauto).
  assert (Hd1 : no_dot "EchoService") by reflexivity.
  assert (Hd2 : no_dot "Echo") by reflexivity.
  repeat (split; [assumption|]).
  destruct (HasMethod_after_register Sample.tables Sample.typeString
              new_serviceMap (as_services Sample.server) Sample.receiver ""
              Sample.Echo
              [OpRegister (Some Sample.receiver) "Other"; OpGetAll;
               OpRegister (Some Sample.receiver) ""; OpRegister None "x"])
    as [_ H].
  destruct (H Hr Hin Hq) as (n & Hn & Hhas).
  injection Hn as <-. destruct (Hhas Hd1 Hd2) as [H1 H2].
  split; [exact H1|exact H2].
Defined.

(** With the sample tables. *)
Lemma register_never_no_service_name_witness :
  unicode.IsUpper Sample.tables utf8.RuneError = false /\
  isExported Sample.tables "" = false /\
  forall m rcvr nm t,
    snd (register Sample.tables Sample.typeString m rcvr nm)
      <> Err (no_service_name t).
Proof.
  assert (H : unicode.IsUpper Sample.tables utf8.RuneError = false)
    by reflexivity.
  split; [exact H|].
  destruct (register_never_no_service_name Sample.tables Sample.typeString H)
    as (He & _ & Hnever).
  split; [exact He|exact Hnever].
Defined.

(** ** The handlers *)

Ltac not_in_trace H :=
  unfold nosniff, WritePureError in H;
  repeat (apply elem_of_cons in H as [H|H]; [discriminate H|]);
  solve [inversion H].

Section HandlerFacts.

Variable U : unicode.Tables.
Variable Sprintf : string -> string -> string.
Variable codec : CodecRequest.

Lemma normalize_Cut (s a b : string) :
  strings.Cut s "." = Some (a, b) ->
  strings.SplitN s "." 2 = [a; b] /\
  normalize U s = a +:+ "." +:+ strings.Title U b.
Proof.
  intros Hc. unfold normalize, strings.SplitN. simpl. rewrite Hc. simpl.
  split; reflexivity.
Qed.

Lemma ApiHandler_no_dot (Server : ApiServer) (r : http.Request) :
  no_dot (http.ctx_method r) ->
  ApiHandler U Sprintf codec Server r = not_found (http.ctx_method r).
Proof. intros Hd. unfold ApiHandler. rewrite Hd. reflexivity. Qed.

Lemma ApiHandler_dot (Server : ApiServer) (r : http.Request) :
  strings.Contains (http.ctx_method r) "." = true ->
  ApiHandler U Sprintf codec Server r =
    RegistryGet (normalize U (http.ctx_method r)) ::
    if HasMethod Server (normalize U (http.ctx_method r))
    then ServeHTTP Sprintf codec Server
           (http.WithMethod r (normalize U (http.ctx_method r)))
    else not_found (normalize U (http.ctx_method r)).
Proof.
  intros Hd. unfold ApiHandler. rewrite Hd. simpl.
  apply Contains_Cut in Hd as (a & b & Hc).
  destruct (normalize_Cut _ _ _ Hc) as [-> _]. simpl.
  destruct (HasMethod Server _); reflexivity.
Qed.

Lemma ServeHTTP_verb (s : ApiServer) (r : http.Request) :
  http.Method r <> "POST" -> http.Method r <> "GET" ->
  ServeHTTP Sprintf codec s r = verb_required (http.Method r).
Proof.
  intros HP HG. unfold ServeHTTP.
  apply String.eqb_neq in HP, HG. rewrite HP, HG. reflexivity.
Qed.

Lemma verb_ok (r : http.Request) :
  http.Method r = "POST" \/ http.Method r = "GET" ->
  negb (String.eqb (http.Method r) "POST")
    && negb (String.eqb (http.Method r) "GET") = false.
Proof. intros [->| ->]; reflexivity. Qed.

(** [ServeHTTP] on a request that reaches the call of the method. *)
Lemma ServeHTTP_invoked (s : ApiServer) (r : http.Request) (key : string)
    (svc : service) (sm : serviceMethod) (args reply : reflect.Value)
    (err : option error) :
  http.Method r = "POST" \/ http.Method r = "GET" ->
  codec_Method codec r = (key, None) ->
  get (as_services s) key = inl (svc, sm) ->
  codec_ReadRequest codec r (reflect.New (argsType sm)) = (args, None) ->
  reflect.MFunc (method sm) (rcvr svc) r args (reflect.New (replyType sm))
    = (reply, err) ->
  ServeHTTP Sprintf codec s r =
    [RegistryGet key;
     Call (name svc) (reflect.MName (method sm)) args;
     nosniff;
     match err with
     | None => WriteResponse (selected r) reply
     | Some e => WriteError (selected r) 400 e
     end].
Proof.
  intros Hv Hm Hg Hr Hf. unfold ServeHTTP. rewrite (verb_ok _ Hv), Hm, Hg, Hr, Hf.
  destruct err; reflexivity.
Qed.

(** The header is set by [ServeHTTP] exactly when the method is called. *)
Lemma nosniff_ServeHTTP (s : ApiServer) (r : http.Request) :
  nosniff ∈ ServeHTTP Sprintf codec s r <-> invoked codec s r.
Proof.
  split.
  - unfold ServeHTTP, invoked.
    destruct (String.eqb_spec (http.Method r) "POST") as [HP|HP];
    destruct (String.eqb_spec (http.Method r) "GET") as [HG|HG]; simpl;
      try (intros H; not_in_trace H).
    all: destruct (codec_Method codec r) as [key [e|]] eqn:Hm;
      try (intros H; not_in_trace H).
    all: destruct (get (as_services s) key) as [[svc sm]|e] eqn:Hg;
      try (intros H; not_in_trace H).
    all: destruct (codec_ReadRequest codec r _) as [args [e|]] eqn:Hr;
      try (intros H; not_in_trace H).
    all: intros _; split; [auto|]; exists key, svc, sm, args; auto.
  - intros (Hv & key & svc & sm & args & Hm & Hg & Hr).
    destruct (reflect.MFunc (method sm) (rcvr svc) r args
                (reflect.New (replyType sm))) as [reply err] eqn:Hf.
    rewrite (ServeHTTP_invoked _ _ _ _ _ _ _ _ Hv Hm Hg Hr Hf).
    do 2 right. left.
Qed.

End HandlerFacts.

Section HandlerClaims.

Variable U : unicode.Tables.
Variable Sprintf : string -> string -> string.
Variable codec : CodecRequest.

(** C4. For an identifier with a dot, [ApiHandler] title-cases what follows
    the first dot and looks the result up in the registry, leaving what
    precedes the first dot as it is: "Foo.bar" is looked up as "Foo.Bar".
    An identifier without a dot, and one whose title-cased form does not
    split into exactly two parts (such as "Foo.Bar.Baz"), is not resolved:
    the reply is "Method not found". *)
Theorem ApiHandler_title_cases_after_first_dot
    (Server : ApiServer) (r : http.Request) :
  (strings.Contains (http.ctx_method r) "." = true ->
   exists a b,
     http.ctx_method r = a +:+ "." +:+ b /\ no_dot a /\
     normalize U (http.ctx_method r) = a +:+ "." +:+ strings.Title U b /\
     ApiHandler U Sprintf codec Server r =
       RegistryGet (a +:+ "." +:+ strings.Title U b) ::
       if HasMethod Server (a +:+ "." +:+ strings.Title U b)
       then ServeHTTP Sprintf codec Server
              (http.WithMethod r (a +:+ "." +:+ strings.Title U b))
       else not_found (a +:+ "." +:+ strings.Title U b)) /\
  normalize U "Foo.bar" = "Foo.Bar" /\
  (no_dot (http.ctx_method r) ->
   ApiHandler U Sprintf codec Server r = not_found (http.ctx_method r)) /\
  (strings.Contains (http.ctx_method r) "." = true ->
   length (strings.Split (normalize U (http.ctx_method r)) ".") <> 2%nat ->
   HasMethod Server (normalize U (http.ctx_method r)) = false /\
   ApiHandler U Sprintf codec Server r =
     RegistryGet (normalize U (http.ctx_method r)) ::
     not_found (normalize U (http.ctx_method r))) /\
  (normalize U "Foo.Bar.Baz" = "Foo.Bar.Baz" /\
   length (strings.Split "Foo.Bar.Baz" ".") = 3%nat).
Proof.
  split; [|split; [vm_compute; reflexivity|split; [|split]]].
  - intros Hd. rewrite (ApiHandler_dot _ _ _ _ _ Hd).
    apply Contains_Cut in Hd as (a & b & Hc).
    destruct (Cut_spec _ _ _ _ Hc) as [Hs Ha].
    destruct (normalize_Cut U _ _ _ Hc) as [_ Hn].
    exists a, b. rewrite Hn. split; [exact Hs|].
    split; [apply no_dot_Cut; exact Ha|]. split; reflexivity.
  - apply ApiHandler_no_dot.
  - intros Hd Hlen. rewrite (ApiHandler_dot _ _ _ _ _ Hd).
    assert (Hh : HasMethod Server (normalize U (http.ctx_method r)) = false).
    { unfold HasMethod.
      rewrite (proj2 (get_ill_formed_iff _ _) Hlen). reflexivity. }
    rewrite Hh. split; reflexivity.
  - split; vm_compute; reflexivity.
Qed.

(** C5. When the identifier of a request handled by [ApiHandler] has no
    dot, or its title-cased form is ill-formed or names no registered
    service and method, the reply has status 404 and the body "api: Method
    not found: ..."; nothing else is written, no 400 and no 500. *)
Theorem ApiHandler_unresolved_is_404
    (Server : ApiServer) (r : http.Request)
    (Hverb : http.Method r = "GET" \/ http.Method r = "POST")
    (Hunresolved :
       no_dot (http.ctx_method r) \/
       exists e, get (as_services Server) (normalize U (http.ctx_method r))
                   = inr e) :
  statuses (ApiHandler U Sprintf codec Server r) = [404] /\
  exists key,
    (key = http.ctx_method r \/ key = normalize U (http.ctx_method r)) /\
    (ApiHandler U Sprintf codec Server r = not_found key \/
     ApiHandler U Sprintf codec Server r = RegistryGet key :: not_found key) /\
    not_found key =
      [WriteHeader 404; HeaderSet "Content-Type" "text/plain; charset=utf-8";
       Fprint ("api: Method not found: " +:+ key)].
Proof.
  destruct (strings.Contains (http.ctx_method r) ".") eqn:Hd.
  - destruct Hunresolved as [Hnd|[e He]]; [unfold no_dot in Hnd; congruence|].
    rewrite (ApiHandler_dot _ _ _ _ _ Hd). unfold HasMethod. rewrite He.
    split; [reflexivity|].
    exists (normalize U (http.ctx_method r)). auto.
  - rewrite (ApiHandler_no_dot _ _ _ _ _ Hd). split; [reflexivity|].
    exists (http.ctx_method r). auto.
Qed.

(** C6, as amended. [ServeHTTP] answers a verb that is neither GET nor POST
    with status 405 before it looks anything up, whatever the identifier.
    [ApiHandler] checks the identifier first: such a request gets 404 when
    the identifier has no dot or does not resolve once title-cased, and 405,
    after the lookup, when it resolves. *)
Theorem unsupported_verb_is_405_in_ServeHTTP
    (Server : ApiServer) (r : http.Request)
    (HP : http.Method r <> "POST") (HG : http.Method r <> "GET") :
  (ServeHTTP Sprintf codec Server r = verb_required (http.Method r) /\
   statuses (ServeHTTP Sprintf codec Server r) = [405] /\
   lookups (ServeHTTP Sprintf codec Server r) = []) /\
  (no_dot (http.ctx_method r) ->
   ApiHandler U Sprintf codec Server r = not_found (http.ctx_method r) /\
   statuses (ApiHandler U Sprintf codec Server r) = [404]) /\
  (strings.Contains (http.ctx_method r) "." = true ->
   HasMethod Server (normalize U (http.ctx_method r)) = false ->
   ApiHandler U Sprintf codec Server r =
     RegistryGet (normalize U (http.ctx_method r)) ::
     not_found (normalize U (http.ctx_method r)) /\
   statuses (ApiHandler U Sprintf codec Server r) = [404]) /\
  (strings.Contains (http.ctx_method r) "." = true ->
   HasMethod Server (normalize U (http.ctx_method r)) = true ->
   ApiHandler U Sprintf codec Server r =
     RegistryGet (normalize U (http.ctx_method r)) ::
     verb_required (http.Method r) /\
   statuses (ApiHandler U Sprintf codec Server r) = [405] /\
   lookups (ApiHandler U Sprintf codec Server r)
     = [normalize U (http.ctx_method r)]).
Proof.
  split; [|split; [|split]].
  - rewrite ServeHTTP_verb by assumption. repeat split.
  - intros Hd. rewrite (ApiHandler_no_dot _ _ _ _ _ Hd). split; reflexivity.
  - intros Hd Hh. rewrite (ApiHandler_dot _ _ _ _ _ Hd), Hh. split; reflexivity.
  - intros Hd Hh. rewrite (ApiHandler_dot _ _ _ _ _ Hd), Hh.
    rewrite ServeHTTP_verb by assumption. repeat split.
Qed.

(** C7. When the method resolves and the arguments decode, [ServeHTTP]
    calls the method; if the method returns an error the codec is asked to
    write that error with status 400 and the reply is not written; if it
    returns nil the codec is asked to write the reply. *)
Theorem ServeHTTP_writes_error_or_reply
    (s : ApiServer) (r : http.Request) (key : string)
    (svc : service) (sm : serviceMethod) (args reply : reflect.Value)
    (err : option error)
    (Hverb : http.Method r = "POST" \/ http.Method r = "GET")
    (Hmethod : codec_Method codec r = (key, None))
    (Hget : get (as_services s) key = inl (svc, sm))
    (Hread : codec_ReadRequest codec r (reflect.New (argsType sm)) = (args, None))
    (Hcall : reflect.MFunc (method sm) (rcvr svc) r args
               (reflect.New (replyType sm)) = (reply, err)) :
  ServeHTTP Sprintf codec s r =
    [RegistryGet key;
     Call (name svc) (reflect.MName (method sm)) args;
     nosniff;
     match err with
     | None => WriteResponse (selected r) reply
     | Some e => WriteError (selected r) 400 e
     end] /\
  (forall e, err = Some e ->
     WriteError (selected r) 400 e ∈ ServeHTTP Sprintf codec s r /\
     statuses (ServeHTTP Sprintf codec s r) = [400] /\
     forall c v, WriteResponse c v ∉ ServeHTTP Sprintf codec s r) /\
  (err = None ->
     WriteResponse (selected r) reply ∈ ServeHTTP Sprintf codec s r /\
     statuses (ServeHTTP Sprintf codec s r) = [] /\
     forall c st e, WriteError c st e ∉ ServeHTTP Sprintf codec s r).
Proof.
  rewrite (ServeHTTP_invoked _ _ _ _ _ _ _ _ _ _ Hverb Hmethod Hget Hread Hcall).
  split; [reflexivity|]. split.
  - intros e ->. split; [do 3 right; left|]. split; [reflexivity|].
    intros c v H. not_in_trace H.
  - intros ->. split; [do 3 right; left|]. split; [reflexivity|].
    intros c st e H. not_in_trace H.
Qed.

(** C8, as amended. The header [x-content-type-options: nosniff] is set
    exactly on the replies of requests that reach the call of the service
    method, just before the codec writes the reply or the error of the
    method. The replies [ServeHTTP] and [ApiHandler] give earlier (verb not
    allowed, method not found, no method name, lookup or decoding failed) do
    not have [ServeHTTP] or [ApiHandler] set it. *)
Theorem nosniff_iff_method_called (Server : ApiServer) (r : http.Request) :
  (nosniff ∈ ServeHTTP Sprintf codec Server r <-> invoked codec Server r) /\
  (nosniff ∈ ApiHandler U Sprintf codec Server r <->
   strings.Contains (http.ctx_method r) "." = true /\
   HasMethod Server (normalize U (http.ctx_method r)) = true /\
   invoked codec Server (http.WithMethod r (normalize U (http.ctx_method r)))) /\
  (invoked codec Server r ->
   exists before written,
     ServeHTTP Sprintf codec Server r = before ++ [nosniff; written] /\
     (nosniff ∉ before) /\
     ((exists reply, written = WriteResponse (selected r) reply) \/
      (exists e, written = WriteError (selected r) 400 e))).
Proof.
  split; [apply nosniff_ServeHTTP|]. split.
  - destruct (strings.Contains (http.ctx_method r) ".") eqn:Hd.
    + rewrite (ApiHandler_dot _ _ _ _ _ Hd).
      destruct (HasMethod Server (normalize U (http.ctx_method r))) eqn:Hh.
      * rewrite elem_of_cons, nosniff_ServeHTTP. split.
        -- intros [H|H]; [discriminate H|auto].
        -- intros (_ & _ & H). auto.
      * split; [intros H; not_in_trace H|intros (_ & H & _); discriminate H].
    + rewrite (ApiHandler_no_dot _ _ _ _ _ Hd).
      split; [intros H; not_in_trace H|intros (H & _); discriminate H].
  - intros (Hv & key & svc & sm & args & Hm & Hg & Hr).
    destruct (reflect.MFunc (method sm) (rcvr svc) r args
                (reflect.New (replyType sm))) as [reply err] eqn:Hf.
    rewrite (ServeHTTP_invoked _ _ _ _ _ _ _ _ _ _ Hv Hm Hg Hr Hf).
    exists [RegistryGet key; Call (name svc) (reflect.MName (method sm)) args].
    eexists. split; [reflexivity|]. split; [intros H; not_in_trace H|].
    destruct err; eauto.
Qed.

End HandlerClaims.

(** "EchoService.echo" is served as "EchoService.Echo". *)
Lemma ApiHandler_title_cases_after_first_dot_witness :
  strings.Contains (http.ctx_method (Sample.request "GET" "EchoService.echo")) "."
    = true /\
  normalize Sample.tables "EchoService.echo" = "EchoService.Echo" /\
  lookups (ApiHandler Sample.tables Sample.sprintf Sample.codec Sample.server
             (Sample.request "GET" "EchoService.echo"))
    = ["EchoService.Echo"; "EchoService.Echo"].
Proof.
  assert (Hd : strings.Contains
                 (http.ctx_method (Sample.request "GET" "EchoService.echo")) "."
               = true) by reflexivity.
  split; [exact Hd|].
  destruct (ApiHandler_title_cases_after_first_dot Sample.tables Sample.sprintf
              Sample.codec Sample.server (Sample.request "GET" "EchoService.echo"))
    as (Hdot & _).
  destruct (Hdot Hd) as (a & b & Hs & Ha & Hn & Hrun).
  split; [vm_compute; reflexivity|].
  rewrite Hrun, <- Hn. vm_compute. reflexivity.
Defined.

(** A GET for a method that is not registered. *)
Lemma ApiHandler_unresolved_is_404_witness :
  (http.Method (Sample.request "GET" "EchoService.missing") = "GET" \/
   http.Method (Sample.request "GET" "EchoService.missing") = "POST") /\
  get (as_services Sample.server) (normalize Sample.tables "EchoService.missing")
    = inr (no_method "EchoService.Missing") /\
  statuses (ApiHandler Sample.tables Sample.sprintf Sample.codec Sample.server
              (Sample.request "GET" "EchoService.missing")) = [404].
Proof.
  assert (Hv : http.Method (Sample.request "GET" "EchoService.missing") = "GET" \/
               http.Method (Sample.request "GET" "EchoService.missing") = "POST")
    by (left; reflexivity).
  assert (Hg : get (as_services Sample.server)
                 (normalize Sample.tables "EchoService.missing")
               = inr (no_method "EchoService.Missing"))
    by (vm_compute; reflexivity).
  split; [exact Hv|]. split; [exact Hg|].
  exact (proj1 (ApiHandler_unresolved_is_404 Sample.tables Sample.sprintf
                  Sample.codec Sample.server
                  (Sample.request "GET" "EchoService.missing") Hv
                  (or_intror (ex_intro _ _ Hg)))).
Defined.

(** A DELETE given to [ServeHTTP]. *)
Lemma unsupported_verb_is_405_in_ServeHTTP_witness :
  http.Method (Sample.request "DELETE" "EchoService.Echo") <> "POST" /\
  http.Method (Sample.request "DELETE" "EchoService.Echo") <> "GET" /\
  statuses (ServeHTTP Sample.sprintf Sample.codec Sample.server
              (Sample.request "DELETE" "EchoService.Echo")) = [405] /\
  lookups (ServeHTTP Sample.sprintf Sample.codec Sample.server
             (Sample.request "DELETE" "EchoService.Echo")) = [].
Proof.
  assert (HP : http.Method (Sample.request "DELETE" "EchoService.Echo") <> "POST")
    by discriminate.
  assert (HG : http.Method (Sample.request "DELETE" "EchoService.Echo") <> "GET")
    by discriminate.
  split; [exact HP|]. split; [exact HG|].
  destruct (unsupported_verb_is_405_in_ServeHTTP Sample.tables Sample.sprintf
              Sample.codec Sample.server
              (Sample.request "DELETE" "EchoService.Echo") HP HG)
    as ((_ & Hs & Hl) & _).
  split; [exact Hs|exact Hl].
Defined.

(** The claim C6 as it was stated fails in [ApiHandler]: a DELETE for an
    identifier without a dot is answered 404, and a DELETE for a registered
    method is looked up in the registry before the verb is refused. *)
Lemma ApiHandler_checks_the_verb_last :
  http.Method (Sample.request "DELETE" "Foo") <> "GET" /\
  http.Method (Sample.request "DELETE" "Foo") <> "POST" /\
  statuses (ApiHandler Sample.tables Sample.sprintf Sample.codec Sample.server
              (Sample.request "DELETE" "Foo")) = [404] /\
  ApiHandler Sample.tables Sample.sprintf Sample.codec Sample.server
    (Sample.request "DELETE" "EchoService.echo")
  = RegistryGet "EchoService.Echo" :: verb_required "DELETE".
Proof.
  split; [discriminate|]. split; [discriminate|].
  split; vm_compute; reflexivity.
Qed.

(** The sample method that fails: status 400 with its error, no reply. *)
Lemma ServeHTTP_writes_error_or_reply_witness :
  ServeHTTP Sample.sprintf Sample.codec Sample.server
    (Sample.request "POST" "EchoService.Fail")
  = [RegistryGet "EchoService.Fail";
     Call "EchoService" "Fail"
       {| reflect.Type_ := reflect.PtrTo Sample.EchoArgs; reflect.IsNil := false;
          reflect.data := "{Value:x}" |};
     nosniff;
     WriteError serverResponseJSON 400 (ErrorString "boom")] /\
  statuses (ServeHTTP Sample.sprintf Sample.codec Sample.server
              (Sample.request "POST" "EchoService.Fail")) = [400].
Proof.
  pose (r := Sample.request "POST" "EchoService.Fail").
  destruct (get (as_services Sample.server) "EchoService.Fail")
    as [[svc sm]|e] eqn:Hg; [|vm_compute in Hg; discriminate].
  assert (Hv : http.Method r = "POST" \/ http.Method r = "GET")
    by (left; reflexivity).
  assert (Hm : codec_Method Sample.codec r = ("EchoService.Fail", None))
    by reflexivity.
  destruct (codec_ReadRequest Sample.codec r (reflect.New (argsType sm)))
    as [args oe] eqn:Hr.
  assert (Hoe : oe = None) by (injection Hr as _ <-; reflexivity). subst oe.
  destruct (reflect.MFunc (method sm) (rcvr svc) r args
              (reflect.New (replyType sm))) as [reply err] eqn:Hf.
  destruct (ServeHTTP_writes_error_or_reply Sample.sprintf Sample.codec
              Sample.server r "EchoService.Fail" svc sm args reply err
              Hv Hm Hg Hr Hf) as (Htrace & _ & _).
  split; [vm_compute; reflexivity|].
  fold r. rewrite Htrace.
  vm_compute in Hg. injection Hg as <- <-.
  vm_compute in Hr. injection Hr as <-.
  vm_compute in Hf. injection Hf as <- <-. reflexivity.
Defined.

(** The sample method that succeeds sets the header; a request for a method
    that does not exist does not. *)
Lemma nosniff_iff_method_called_witness :
  invoked Sample.codec Sample.server (Sample.request "GET" "EchoService.Echo") /\
  nosniff ∈ ServeHTTP Sample.sprintf Sample.codec Sample.server
              (Sample.request "GET" "EchoService.Echo").
Proof.
  assert (Hi : invoked Sample.codec Sample.server
                 (Sample.request "GET" "EchoService.Echo")).
  { split; [right; reflexivity|].
    destruct (get (as_services Sample.server) "EchoService.Echo")
      as [[svc sm]|e] eqn:Hg; [|vm_compute in Hg; discriminate].
    exists "EchoService.Echo", svc, sm. eexists.
    split; [reflexivity|]. split; [exact Hg|]. reflexivity. }
  split; [exact Hi|].
  exact (proj2 (proj1 (nosniff_iff_method_called Sample.tables Sample.sprintf
                         Sample.codec Sample.server
                         (Sample.request "GET" "EchoService.Echo"))) Hi).
Defined.

(** The claim C8 as it was stated fails: the replies to a verb that is not
    allowed and to a method that is not found do not carry the header. *)
Lemma nosniff_missing_on_early_replies :
  ServeHTTP Sample.sprintf Sample.codec Sample.server
    (Sample.request "DELETE" "EchoService.Echo")
  = [WriteHeader 405; HeaderSet "Content-Type" "text/plain; charset=utf-8";
     Fprint "api: POST or GET method required, received DELETE"] /\
  (nosniff ∉ ServeHTTP Sample.sprintf Sample.codec Sample.server
               (Sample.request "DELETE" "EchoService.Echo")) /\
  (nosniff ∉ ApiHandler Sample.tables Sample.sprintf Sample.codec Sample.server
               (Sample.request "GET" "EchoService.Missing")).
Proof.
  split; [vm_compute; reflexivity|]. split.
  - intros H. vm_compute in H. not_in_trace H.
  - intros H. vm_compute in H. not_in_trace H.
Qed.

(** * Further properties *)

(** ** The registry *)

Section RegistryProperties.

Variable U : unicode.Tables.
Variable TypeString : reflect.rtype -> string.

Lemma service_name_nonempty (i : reflect.Interface_) (nm n : string) :
  service_name U i nm = Some n -> n <> "".
Proof.
  unfold service_name. destruct (String.eqb_spec nm "") as [|Hnm].
  - destruct (reflect.Indirect_Type _) as [t|]; [|discriminate].
    destruct (isExported U _); simpl; [|discriminate].
    destruct (String.eqb_spec (reflect.Name t) ""); simpl; [discriminate|].
    intros [= <-]. assumption.
  - intros [= <-]. assumption.
Qed.

Lemma entry_entry_ok (i : reflect.Interface_) (n : string) :
  n <> "" -> size (collect U (reflect.methodset i)) <> 0%nat ->
  entry_ok U n (entry U i n).
Proof.
  intros Hn Hsz. split; [reflexivity|]. split; [exact Hn|]. split.
  - simpl. intros He. apply Hsz. rewrite He. apply map_size_empty.
  - simpl. intros mk sm Hk. apply collect_Some in Hk as (mth & _ & Hname & Hs).
    destruct (suitable_Some _ _ _ Hs) as [Hm _]. rewrite Hm.
    split; [exact Hname|]. split; [exact Hs|].
    apply suitable_iff_Qualifies. eauto.
Qed.

Lemma register_keeps_ok (m : serviceMap) (rcvr : option reflect.Interface_)
    (nm : string) :
  registry_ok U m -> registry_ok U (fst (register U TypeString m rcvr nm)).
Proof.
  intros Hok. destruct (register U TypeString m rcvr nm) as [m' out] eqn:Hr.
  destruct out; simpl.
  - destruct (register_Ok _ _ _ _ _ _ Hr) as (i & n & _ & Hn & _ & Hsz & ->).
    intros k s. rewrite lookup_store. simpl.
    destruct (decide (n = k)) as [<-|]; [|apply Hok].
    intros [= <-]. apply entry_entry_ok; [|exact Hsz].
    exact (service_name_nonempty _ _ _ Hn).
  - replace m' with (fst (register U TypeString m rcvr nm))
      by (rewrite Hr; reflexivity).
    rewrite register_failed by (rewrite Hr; discriminate). exact Hok.
  - replace m' with (fst (register U TypeString m rcvr nm))
      by (rewrite Hr; reflexivity).
    rewrite register_failed by (rewrite Hr; discriminate). exact Hok.
Qed.

(** X1. Whatever operations a new registry goes through, every service in
    it is stored under its own, non-empty, name, has at least one method,
    and holds only qualifying methods, each under its own name; and an entry
    once stored is found unchanged after any further operations. *)
Theorem registry_invariant (ops more : list op) :
  registry_ok U (run U TypeString ops new_serviceMap) /\
  forall k s,
    lookup_service (run U TypeString ops new_serviceMap) k = Some s ->
    lookup_service (run U TypeString (ops ++ more) new_serviceMap) k = Some s.
Proof.
  split.
  - assert (H : forall m, registry_ok U m -> registry_ok U (run U TypeString ops m)).
    { induction ops as [|o ops' IH]; intros m Hm; [exact Hm|].
      simpl. apply IH. destruct o; simpl; auto using register_keeps_ok. }
    apply H. intros k s Hl. discriminate Hl.
  - intros k s Hl. unfold run. rewrite fold_left_app.
    apply (run_preserves U TypeString more _ _ _ Hl).
Qed.

(** X2. [get] resolves a key exactly when the key is a service name, a dot
    and a method name, neither with a dot in it, the service is registered
    and has the method; it then returns that entry and that method.
    Otherwise its error is one of "ill-formed", "can't find service" and
    "can't find method", about the key as it was given. *)
Theorem get_resolves_iff (m : serviceMap) (key : string)
    (svc : service) (sm : serviceMethod) :
  (get m key = inl (svc, sm) <->
   exists a b, key = a +:+ "." +:+ b /\ no_dot a /\ no_dot b /\
               lookup_service m a = Some svc /\ methods svc !! b = Some sm) /\
  (forall e, get m key = inr e ->
     e = ill_formed key \/ e = no_service key \/ e = no_method key).
Proof.
  split; [split|].
  - intros Hg.
    destruct (Nat.eq_dec (length (strings.Split key ".")) 2%nat) as [Hlen|Hlen].
    + apply Split_two_iff in Hlen as (a & b & -> & Ha & Hb).
      exists a, b. apply no_dot_Cut in Ha, Hb.
      change (a +:+ String "." b) with (a +:+ "." +:+ b) in Hg.
      rewrite get_two_parts in Hg by assumption.
      destruct (lookup_service m a) as [svc'|]; [|discriminate].
      destruct (methods svc' !! b) as [sm'|] eqn:Hb'; [|discriminate].
      injection Hg as <- <-. auto.
    + apply (get_ill_formed_iff m key) in Hlen. congruence.
  - intros (a & b & -> & Ha & Hb & Hl & Hm).
    rewrite get_two_parts by assumption. rewrite Hl, Hm. reflexivity.
  - intros e. unfold get. destruct (negb _); [intros [= <-]; auto|].
    destruct (lookup_service m _) as [svc'|]; [|intros [= <-]; auto].
    destruct (methods svc' !! _); [discriminate|intros [= <-]; auto].
Qed.

(** X3. [register] succeeds exactly when the receiver is not nil, the name
    of the service is settled (given, or taken from an exported type), at
    least one method qualifies and no service has that name yet. *)
Theorem register_succeeds_iff
    (m : serviceMap) (rcvr : option reflect.Interface_) (nm : string) :
  snd (register U TypeString m rcvr nm) = Ok <->
  exists i n,
    rcvr = Some i /\ service_name U i nm = Some n /\
    (exists mth, mth ∈ reflect.methodset i /\ Qualifies U mth) /\
    lookup_service m n = None.
Proof.
  split.
  - intros Hout. destruct (register U TypeString m rcvr nm) as [m' out] eqn:Hr.
    simpl in Hout. subst out.
    destruct (register_Ok _ _ _ _ _ _ Hr) as (i & n & -> & Hn & Hfree & Hsz & _).
    exists i, n. split; [reflexivity|]. split; [exact Hn|]. split; [|exact Hfree].
    assert (Hne : collect U (reflect.methodset i) <> ∅).
    { intros He. apply Hsz. rewrite He. apply map_size_empty. }
    apply map_choose in Hne as (k & sm & Hk).
    apply collect_Some in Hk as (mth & Hin & _ & Hs). exists mth.
    split; [exact Hin|]. apply suitable_iff_Qualifies. eauto.
  - intros (i & n & -> & Hn & (mth & Hin & Hq) & Hfree).
    rewrite (register_named _ _ _ _ _ _ Hn), Hfree.
    destruct (Nat.eqb_spec (size (collect U (reflect.methodset i))) 0) as [Hz|];
      [|reflexivity].
    exfalso. apply suitable_iff_Qualifies in Hq as [sm Hs].
    rewrite (proj1 (collect_empty_iff U _) Hz mth Hin) in Hs. discriminate.
Qed.

(** X4. [register] panics exactly on a nil receiver and, when no name is
    given, on a receiver that is a nil pointer (whose type [reflect.Indirect]
    cannot take); the registry is then as it was. A nil pointer under a
    given name does not panic. *)
Theorem register_panics_iff
    (m : serviceMap) (rcvr : option reflect.Interface_) (nm : string) :
  (snd (register U TypeString m rcvr nm) = Panic <->
   rcvr = None \/
   exists i, rcvr = Some i /\ nm = "" /\
             reflect.isPtr (reflect.Type_ (reflect.dyn i)) = true /\
             reflect.IsNil (reflect.dyn i) = true) /\
  (snd (register U TypeString m rcvr nm) = Panic ->
   fst (register U TypeString m rcvr nm) = m).
Proof.
  split; [|intros H; apply register_failed; rewrite H; discriminate].
  destruct rcvr as [i|]; [|split; [auto|reflexivity]].
  assert (Hind : reflect.Indirect_Type (reflect.ValueOf i) = None <->
                 reflect.isPtr (reflect.Type_ (reflect.dyn i)) = true /\
                 reflect.IsNil (reflect.dyn i) = true).
  { unfold reflect.Indirect_Type, reflect.ValueOf.
    destruct (reflect.Type_ (reflect.dyn i)); simpl.
    - destruct (reflect.IsNil (reflect.dyn i)); split; try discriminate; auto.
      intros [_ H]; discriminate.
    - split; [discriminate|]. intros [H _]; discriminate. }
  destruct (service_name U i nm) as [n|] eqn:Hn.
  - rewrite (register_named _ _ _ _ _ _ Hn). split.
    + destruct (size _ =? 0)%nat; [discriminate|].
      destruct (lookup_service m n); discriminate.
    + intros [H|(i' & [= <-] & -> & Hnil)]; [discriminate|].
      exfalso. apply Hind in Hnil. unfold service_name in Hn. simpl in Hn.
      rewrite Hnil in Hn. discriminate.
  - destruct (register_unnamed U TypeString m i nm Hn) as (_ & -> & Hout).
    destruct (reflect.Indirect_Type (reflect.ValueOf i)) as [t|] eqn:Ht.
    + split.
      * destruct (isExported U _); [destruct Hout as [_ ->]|rewrite Hout];
          discriminate.
      * intros [H|(i' & [= <-] & _ & Hnil)]; [discriminate|].
        apply Hind in Hnil. congruence.
    + split; [|intros _; exact Hout].
      intros _. right. exists i. split; [reflexivity|]. split; [reflexivity|].
      apply Hind. reflexivity.
Qed.

(** X5. A registration that succeeds adds exactly one service to the
    registry; one that fails adds none. *)
Theorem register_counts
    (m : serviceMap) (rcvr : option reflect.Interface_) (nm : string) :
  count_services (fst (register U TypeString m rcvr nm)) =
    match snd (register U TypeString m rcvr nm) with
    | Ok => S (count_services m)
    | _ => count_services m
    end.
Proof.
  destruct (register U TypeString m rcvr nm) as [m' out] eqn:Hr.
  destruct out; simpl.
  - destruct (register_Ok _ _ _ _ _ _ Hr) as (i & n & _ & _ & Hfree & _ & ->).
    unfold count_services, store; simpl.
    apply map_size_insert_None. unfold lookup_service in Hfree.
    destruct (services m); [exact Hfree|apply lookup_empty].
  - replace m' with (fst (register U TypeString m rcvr nm))
      by (rewrite Hr; reflexivity).
    rewrite register_failed by (rewrite Hr; discriminate). reflexivity.
  - replace m' with (fst (register U TypeString m rcvr nm))
      by (rewrite Hr; reflexivity).
    rewrite register_failed by (rewrite Hr; discriminate). reflexivity.
Qed.

End RegistryProperties.

(** ** Names and types *)

Lemma byte_of_range (c : ascii) : 0 <= byte_of c < 256.
Proof.
  unfold byte_of. pose proof (N_ascii_bounded c). lia.
Qed.

Lemma of_byte_of (c : ascii) : of_byte (byte_of c) = c.
Proof.
  unfold of_byte. pose proof (byte_of_range c) as H.
  rewrite Z.mod_small by exact H. unfold byte_of.
  rewrite N2Z.id. apply ascii_N_embedding.
Qed.

Lemma of_bytes_bytes (s : string) : of_bytes (bytes s) = s.
Proof.
  unfold of_bytes, bytes. rewrite map_map.
  rewrite (map_ext _ (fun c => c)) by apply of_byte_of.
  rewrite map_id. apply string_of_list_ascii_of_string.
Qed.

(** An ASCII byte decodes as itself, with width 1. *)
Lemma Decode_ASCII (b : Z) (rest : list Z) :
  0 <= b < 0x80 -> utf8.DecodeRuneInString (b :: rest) = (b, 1%nat).
Proof.
  intros Hb. unfold utf8.DecodeRuneInString, utf8.at_, utf8.first. simpl.
  destruct (Z.ltb_spec b 128) as [_|]; [|lia]. simpl.
  rewrite Z.land_0_r, Z.lor_0_r.
  change (Z.lnot 0) with (-1). rewrite Z.land_m1_r. reflexivity.
Qed.

Section NameProperties.

Variable U : unicode.Tables.

(** X6. [isExported] looks at the first rune only. Of a name that begins
    with an ASCII byte it is true exactly when that byte is a capital letter
    [A] to [Z]; a digit, an underscore or a small letter in front makes the
    name unexported. *)
Theorem isExported_ASCII (c : ascii) (s : string) :
  byte_of c < 0x80 ->
  isExported U (String c s) = unicode.between 65 90 (byte_of c).
Proof.
  intros Hc. pose proof (byte_of_range c) as Hr.
  unfold isExported. change (bytes (String c s)) with (byte_of c :: bytes s).
  rewrite Decode_ASCII by lia. unfold unicode.IsUpper, unicode.MaxASCII.
  destruct (Z.leb_spec (byte_of c) 127); [reflexivity|lia].
Qed.

Lemma isExportedOrBuiltin_pointers (n : nat) (k : reflect.Kind)
    (tname pkg : string) :
  isExportedOrBuiltin U (pointers n (reflect.BaseType k tname pkg)) =
    isExported U tname || String.eqb pkg "".
Proof.
  induction n as [|n IH]; [reflexivity|]. exact IH.
Qed.

(** X7. A method of the shape of a handler (an exported method that takes a
    [*http.Request], then arguments and a reply behind one or more pointers,
    and returns an [error]) is kept by [register] exactly when the types at
    the bottom of the pointers of its arguments and of its reply each have
    an exported name or an empty package path; the depth of the pointers
    does not count. What is stored as the type of the arguments and of the
    reply is what the outermost pointer points to. *)
Theorem suitable_handler_shape (mname : string) (recv : reflect.rtype)
    (n k : nat) (ka kb : reflect.Kind) (aname apkg bname bpkg : string)
    (f : reflect.Value -> http.Request -> reflect.Value -> reflect.Value ->
         reflect.Value * option error) :
  let A := reflect.BaseType ka aname apkg in
  let B := reflect.BaseType kb bname bpkg in
  let mth :=
    {| reflect.MName := mname; reflect.MPkgPath := "";
       reflect.MType :=
         {| reflect.ins := [recv; reflect.PtrTo typeOfRequest;
                            pointers (S n) A; pointers (S k) B];
            reflect.outs := [typeOfError] |};
       reflect.MFunc := f |} in
  suitable U mth =
    if (isExported U aname || String.eqb apkg "")
       && (isExported U bname || String.eqb bpkg "")
    then Some {| method := mth; argsType := pointers n A;
                 replyType := pointers k B |}
    else None.
Proof.
  intros A B mth. unfold suitable. simpl.
  change (reflect.PtrTo (pointers n A)) with (pointers (S n) A).
  change (reflect.PtrTo (pointers k B)) with (pointers (S k) B).
  unfold A at 1, B at 1. rewrite !isExportedOrBuiltin_pointers.
  destruct (isExported U aname || String.eqb apkg ""); simpl; [|reflexivity].
  destruct (isExported U bname || String.eqb bpkg ""); reflexivity.
Qed.

End NameProperties.

(** The name [EchoService] is exported, [echoService] is not. *)
Lemma isExported_ASCII_witness :
  byte_of "E" < 0x80 /\
  isExported Sample.tables "EchoService" = true /\
  isExported Sample.tables "echoService" = false.
Proof.
  assert (H : byte_of "E" < 0x80) by reflexivity.
  split; [exact H|]. split.
  - rewrite (isExported_ASCII Sample.tables "E" "choService" H). reflexivity.
  - reflexivity.
Defined.

(** ** Title case *)

Lemma ident_byte_range (b : Z) : ident_byte b = true -> 48 <= b <= 122.
Proof.
  unfold ident_byte, unicode.between. intros H.
  repeat (apply orb_true_iff in H as [H|H]);
    try (apply andb_true_iff in H as [H1 H2]); lia.
Qed.

Section TitleProperties.

Variable U : unicode.Tables.

Lemma ident_not_separator (b : Z) :
  ident_byte b = true -> strings.isSeparator U b = false.
Proof.
  intros H. pose proof (ident_byte_range _ H) as Hr.
  unfold strings.isSeparator. destruct (Z.leb_spec b 127); [|lia].
  unfold ident_byte in H.
  destruct (unicode.between 48 57 b); [reflexivity|].
  destruct (unicode.between 97 122 b); [reflexivity|].
  destruct (unicode.between 65 90 b); [reflexivity|].
  destruct (b =? 95); [reflexivity|discriminate].
Qed.

(** After a byte of an identifier, the bytes of an identifier go through
    the mapping of [Title] unchanged. *)
Lemma Map_from_ident (l : list Z) (prev : Z) :
  forallb ident_byte l = true -> strings.isSeparator U prev = false ->
  strings.Map_from (title_mapping U) 0 prev l = l.
Proof.
  revert prev. induction l as [|b l IH]; intros prev Hl Hp; [reflexivity|].
  simpl in Hl. apply andb_true_iff in Hl as [Hb Hl].
  pose proof (ident_byte_range _ Hb) as Hr.
  cbn [strings.Map_from]. rewrite Decode_ASCII by lia.
  unfold title_mapping at 1. rewrite Hp.
  destruct (Z.leb_spec 0 b); [|lia].
  unfold utf8.EncodeRune, utf8.rune1Max.
  destruct (Z.leb_spec b 127); [|lia]. simpl.
  rewrite IH; [reflexivity|exact Hl|apply ident_not_separator; exact Hb].
Qed.

(** X8. [strings.Title] on an ASCII identifier (letters, digits and
    underscores) changes the first byte only: a small letter in front
    becomes the capital letter, anything else stays. An identifier that
    does not begin with a small letter is left as it is. *)
Theorem Title_ident (c : ascii) (s : string) :
  ascii_ident (String c s) = true ->
  strings.Title U (String c s) =
    String (if unicode.between 97 122 (byte_of c)
            then of_byte (byte_of c - 32) else c) s.
Proof.
  unfold ascii_ident. change (bytes (String c s)) with (byte_of c :: bytes s).
  simpl. intros H. apply andb_true_iff in H as [Hc Hs].
  pose proof (ident_byte_range _ Hc) as Hr.
  unfold strings.Title, strings.Map. fold (title_mapping U).
  change (bytes (String c s)) with (byte_of c :: bytes s).
  cbn [strings.Map_from]. rewrite Decode_ASCII by lia.
  unfold title_mapping at 1.
  change (strings.isSeparator U 32) with true. cbv iota.
  rewrite Map_from_ident by (auto using ident_not_separator).
  unfold unicode.ToTitle, unicode.MaxASCII.
  destruct (Z.leb_spec (byte_of c) 127); [|lia].
  destruct (unicode.between 97 122 (byte_of c)) eqn:Hlow.
  - unfold unicode.between in Hlow. apply andb_true_iff in Hlow as [H1 H2].
    destruct (Z.leb_spec 0 (byte_of c - (97 - 65))); [|lia].
    unfold utf8.EncodeRune, utf8.rune1Max.
    destruct (Z.leb_spec (byte_of c - (97 - 65)) 127); [|lia].
    simpl. unfold of_bytes. simpl. f_equal.
    change (string_of_list_ascii (map of_byte (bytes s))) with (of_bytes (bytes s)).
    apply of_bytes_bytes.
  - destruct (Z.leb_spec 0 (byte_of c)); [|lia].
    unfold utf8.EncodeRune, utf8.rune1Max.
    destruct (Z.leb_spec (byte_of c) 127); [|lia].
    simpl. unfold of_bytes. simpl. rewrite of_byte_of. f_equal.
    change (string_of_list_ascii (map of_byte (bytes s))) with (of_bytes (bytes s)).
    apply of_bytes_bytes.
Qed.

End TitleProperties.

(** The names of the sample methods. *)
Lemma Title_ident_witness :
  ascii_ident "echo" = true /\ ascii_ident "Echo_2" = true /\
  strings.Title Sample.tables "echo" = "Echo" /\
  strings.Title Sample.tables "Echo_2" = "Echo_2".
Proof.
  assert (H1 : ascii_ident "echo" = true) by reflexivity.
  assert (H2 : ascii_ident "Echo_2" = true) by reflexivity.
  split; [exact H1|]. split; [exact H2|]. split.
  - rewrite (Title_ident Sample.tables "e" "cho" H1). reflexivity.
  - rewrite (Title_ident Sample.tables "E" "cho_2" H2). reflexivity.
Defined.

(** ** Replies *)

Lemma substring_all (s : string) : substring 0 (String.length s) s = s.
Proof. induction s as [|c s IH]; simpl; [reflexivity|]. rewrite IH. reflexivity. Qed.

Lemma substring_append (p suf : string) :
  substring (String.length p) (String.length suf) (p +:+ suf) = suf.
Proof. induction p as [|c p IH]; simpl; [apply substring_all|exact IH]. Qed.

Lemma length_append (p suf : string) :
  String.length (p +:+ suf) = (String.length p + String.length suf)%nat.
Proof. induction p as [|c p IH]; simpl; [reflexivity|]. rewrite IH. reflexivity. Qed.

Lemma substring_split (s : string) (n : nat) :
  (n <= String.length s)%nat ->
  s = substring 0 n s +:+ substring n (String.length s - n) s.
Proof.
  revert n. induction s as [|c s IH]; intros n Hn.
  - destruct n; reflexivity.
  - destruct n as [|n]; simpl.
    + rewrite substring_all. reflexivity.
    + simpl in Hn.
      change (String c s =
              String c (substring 0 n s +:+ substring n (String.length s - n) s)).
      f_equal. apply IH. lia.
Qed.

(** [HasSuffix(s, suffix)] holds exactly when [s] ends with [suffix]. *)
Lemma HasSuffix_iff (s suf : string) :
  strings.HasSuffix s suf = true <-> exists p, s = p +:+ suf.
Proof.
  unfold strings.HasSuffix. split.
  - intros H. apply andb_true_iff in H as [Hlen Heq].
    apply Nat.leb_le in Hlen. apply String.eqb_eq in Heq.
    exists (substring 0 (String.length s - String.length suf) s).
    rewrite (substring_split s (String.length s - String.length suf)) at 1 by lia.
    replace (String.length s - (String.length s - String.length suf))%nat
      with (String.length suf) by lia.
    rewrite Heq. reflexivity.
  - intros [p ->]. rewrite length_append. apply andb_true_iff. split.
    + apply Nat.leb_le. lia.
    + replace (String.length p + String.length suf - String.length suf)%nat
        with (String.length p) by lia.
      rewrite substring_append. apply String.eqb_refl.
Qed.

Section ReplyProperties.

Variable U : unicode.Tables.
Variable Sprintf : string -> string -> string.
Variable codec : CodecRequest.

(** The replies [ServeHTTP] can give. *)
Lemma ServeHTTP_cases (s : ApiServer) (r : http.Request) :
  ServeHTTP Sprintf codec s r = verb_required (http.Method r) \/
  (exists e, ServeHTTP Sprintf codec s r = WritePureError 400 (Error Sprintf e)) \/
  (exists key e, ServeHTTP Sprintf codec s r
                 = [RegistryGet key; WriteError (selected r) 400 e]) \/
  (exists key svc sm args w,
     ServeHTTP Sprintf codec s r
       = [RegistryGet key; Call (name svc) (reflect.MName (method sm)) args;
          nosniff; w] /\
     ((exists reply, w = WriteResponse (selected r) reply) \/
      (exists e, w = WriteError (selected r) 400 e))).
Proof.
  unfold ServeHTTP. fold (selected r).
  destruct (negb _ && negb _); [left; reflexivity|right].
  destruct (codec_Method codec r) as [key [e|]]; [left; eauto|right].
  destruct (get (as_services s) key) as [[svc sm]|e]; [|left; eauto].
  destruct (codec_ReadRequest codec r _) as [args [e|]]; [left; eauto|right].
  destruct (reflect.MFunc _ _ _ _ _) as [reply err].
  exists key, svc, sm, args. destruct err; eauto 10.
Qed.

(** The replies [ApiHandler] can give. *)
Lemma ApiHandler_cases (Server : ApiServer) (r : http.Request) :
  (exists key, ApiHandler U Sprintf codec Server r = not_found key) \/
  (exists key, ApiHandler U Sprintf codec Server r
               = RegistryGet key :: not_found key) \/
  (exists key r', ApiHandler U Sprintf codec Server r
                  = RegistryGet key :: ServeHTTP Sprintf codec Server r' /\
                  http.Method r' = http.Method r /\
                  http.format r' = http.format r).
Proof.
  destruct (strings.Contains (http.ctx_method r) ".") eqn:Hd.
  - rewrite (ApiHandler_dot _ _ _ _ _ Hd).
    destruct (HasMethod Server _); [right; right|right; left; eauto].
    eexists _, _. split; [reflexivity|]. split; reflexivity.
  - left. rewrite (ApiHandler_no_dot _ _ _ _ _ Hd). eauto.
Qed.

(** X9. Every reply of [ServeHTTP] and of [ApiHandler] writes exactly one
    response (a plain error, or what the codec is asked to write) and calls
    at most one service method; [ServeHTTP] looks the registry up at most
    once and [ApiHandler] at most twice. The status codes are 405 and 400 in
    [ServeHTTP], and these or 404 in [ApiHandler]; a reply without a status
    code is the reply of the method, written by the codec. *)
Theorem one_response_per_request (s : ApiServer) (r : http.Request) :
  (length (writes (ServeHTTP Sprintf codec s r)) = 1%nat /\
   (length (calls (ServeHTTP Sprintf codec s r)) <= 1)%nat /\
   (length (lookups (ServeHTTP Sprintf codec s r)) <= 1)%nat /\
   (statuses (ServeHTTP Sprintf codec s r) = [405] \/
    statuses (ServeHTTP Sprintf codec s r) = [400] \/
    statuses (ServeHTTP Sprintf codec s r) = [] /\
    exists reply, WriteResponse (selected r) reply ∈ ServeHTTP Sprintf codec s r)) /\
  (length (writes (ApiHandler U Sprintf codec s r)) = 1%nat /\
   (length (calls (ApiHandler U Sprintf codec s r)) <= 1)%nat /\
   (length (lookups (ApiHandler U Sprintf codec s r)) <= 2)%nat /\
   (statuses (ApiHandler U Sprintf codec s r) = [404] \/
    statuses (ApiHandler U Sprintf codec s r) = [405] \/
    statuses (ApiHandler U Sprintf codec s r) = [400] \/
    statuses (ApiHandler U Sprintf codec s r) = [] /\
    exists reply, WriteResponse (selected r) reply
                    ∈ ApiHandler U Sprintf codec s r)).
Proof.
  assert (HS : forall r0,
    length (writes (ServeHTTP Sprintf codec s r0)) = 1%nat /\
    (length (calls (ServeHTTP Sprintf codec s r0)) <= 1)%nat /\
    (length (lookups (ServeHTTP Sprintf codec s r0)) <= 1)%nat /\
    (statuses (ServeHTTP Sprintf codec s r0) = [405] \/
     statuses (ServeHTTP Sprintf codec s r0) = [400] \/
     statuses (ServeHTTP Sprintf codec s r0) = [] /\
     exists reply,
       WriteResponse (selected r0) reply ∈ ServeHTTP Sprintf codec s r0)).
  { intros r0.
    destruct (ServeHTTP_cases s r0)
      as [->|[[e ->]|[(key & e & ->)|(key & svc & sm & args & w & -> & Hw)]]];
      simpl; try (repeat split; auto; lia).
    destruct Hw as [[reply ->]|[e ->]]; simpl.
    - repeat split; auto. right; right. split; [reflexivity|].
      exists reply. do 3 right. left.
    - repeat split; auto. }
  split; [apply HS|].
  destruct (ApiHandler_cases s r)
    as [[key ->]|[[key ->]|(key & r' & -> & _ & Hf)]];
    simpl; try (repeat split; auto; lia).
  destruct (HS r') as (Hw & Hc & Hl & Hst).
  change (writes (RegistryGet key :: ServeHTTP Sprintf codec s r'))
    with (writes (ServeHTTP Sprintf codec s r')).
  change (calls (RegistryGet key :: ServeHTTP Sprintf codec s r'))
    with (calls (ServeHTTP Sprintf codec s r')).
  change (statuses (RegistryGet key :: ServeHTTP Sprintf codec s r'))
    with (statuses (ServeHTTP Sprintf codec s r')).
  split; [exact Hw|]. split; [exact Hc|]. split; [simpl; lia|].
  destruct Hst as [->|[->|[-> [reply Hin]]]]; auto.
  do 3 right. split; [reflexivity|]. exists reply.
  unfold selected in *. rewrite <- Hf. right. exact Hin.
Qed.

(** X10. In [ServeHTTP] a request that is not served is answered 400,
    never 404: the error of the codec for the name of the method goes out as
    plain text; the error of [get] for a method that is ill-formed or not
    registered, and the error of the codec for arguments that do not decode,
    are given to the codec with status 400, and the method is not called. *)
Theorem ServeHTTP_errors_are_400 (s : ApiServer) (r : http.Request)
    (Hverb : http.Method r = "POST" \/ http.Method r = "GET") :
  (forall key e, codec_Method codec r = (key, Some e) ->
     ServeHTTP Sprintf codec s r = WritePureError 400 (Error Sprintf e)) /\
  (forall key e, codec_Method codec r = (key, None) ->
     get (as_services s) key = inr e ->
     ServeHTTP Sprintf codec s r
       = [RegistryGet key; WriteError (selected r) 400 e]) /\
  (forall key svc sm args e, codec_Method codec r = (key, None) ->
     get (as_services s) key = inl (svc, sm) ->
     codec_ReadRequest codec r (reflect.New (argsType sm)) = (args, Some e) ->
     ServeHTTP Sprintf codec s r
       = [RegistryGet key; WriteError (selected r) 400 e]).
Proof.
  unfold ServeHTTP. rewrite (verb_ok _ Hverb). fold (selected r).
  split; [|split].
  - intros key e ->. reflexivity.
  - intros key e -> ->. reflexivity.
  - intros key svc sm args e -> -> ->. reflexivity.
Qed.

(** X11. A server that has just been made has no method: every request
    that goes through [ApiHandler] is answered 404, and [GetAll] gives the
    nil map. *)
Theorem new_server_answers_404 (r : http.Request) (key : string) :
  HasMethod newApiServer key = false /\
  GetAll (as_services newApiServer) = (None, Ok) /\
  statuses (ApiHandler U Sprintf codec newApiServer r) = [404] /\
  calls (ApiHandler U Sprintf codec newApiServer r) = [].
Proof.
  assert (Hh : forall k, HasMethod newApiServer k = false).
  { intros k. unfold HasMethod, get. destruct (negb _); reflexivity. }
  split; [apply Hh|]. split; [reflexivity|].
  destruct (strings.Contains (http.ctx_method r) ".") eqn:Hd.
  - rewrite (ApiHandler_dot _ _ _ _ _ Hd), Hh. split; reflexivity.
  - rewrite (ApiHandler_no_dot _ _ _ _ _ Hd). split; reflexivity.
Qed.

(** X12. The codec that writes the reply is the XML one exactly when the
    [format] parameter of the query ends in "xml", the JSON one otherwise;
    everything [ServeHTTP] has a codec write is written by that one. *)
Theorem codec_selection (s : ApiServer) (r : http.Request) :
  (selected r = serverResponseXML <-> exists p, http.format r = p +:+ "xml") /\
  (selected r = serverResponseJSON <-> ~ exists p, http.format r = p +:+ "xml") /\
  (forall c reply, WriteResponse c reply ∈ ServeHTTP Sprintf codec s r ->
     c = selected r) /\
  (forall c st e, WriteError c st e ∈ ServeHTTP Sprintf codec s r ->
     c = selected r /\ st = 400).
Proof.
  assert (Hx : selected r = serverResponseXML <->
               exists p, http.format r = p +:+ "xml").
  { rewrite <- HasSuffix_iff. unfold selected.
    destruct (strings.HasSuffix (http.format r) "xml"); split; congruence. }
  split; [exact Hx|]. split.
  - rewrite <- Hx. destruct (selected r); split; congruence.
  - split.
    + intros c reply Hin.
      destruct (ServeHTTP_cases s r)
        as [H|[[e H]|[(key & e & H)|(key & svc & sm & args & w & H & Hw)]]];
        rewrite H in Hin.
      * unfold verb_required in Hin. not_in_trace Hin.
      * not_in_trace Hin.
      * not_in_trace Hin.
      * destruct Hw as [[reply' ->]|[e ->]].
        -- repeat (apply elem_of_cons in Hin as [Hin|Hin]; try discriminate Hin).
           ++ injection Hin as -> _. reflexivity.
           ++ inversion Hin.
        -- not_in_trace Hin.
    + intros c st e0 Hin.
      destruct (ServeHTTP_cases s r)
        as [H|[[e H]|[(key & e & H)|(key & svc & sm & args & w & H & Hw)]]];
        rewrite H in Hin.
      * unfold verb_required in Hin. not_in_trace Hin.
      * not_in_trace Hin.
      * repeat (apply elem_of_cons in Hin as [Hin|Hin]; try discriminate Hin).
        -- injection Hin as -> -> _. auto.
        -- inversion Hin.
      * destruct Hw as [[reply' ->]|[e ->]].
        -- not_in_trace Hin.
        -- repeat (apply elem_of_cons in Hin as [Hin|Hin]; try discriminate Hin).
           ++ injection Hin as -> -> _. auto.
           ++ inversion Hin.
Qed.

(** X13. No header is in place when a plain error is written: the
    [Content-Type] of [WritePureError] is set after [WriteHeader]. The only
    header a handler sets before the reply is written is
    [x-content-type-options: nosniff], on the requests that reach the call
    of the method. *)
Theorem headers_set_before_the_reply (s : ApiServer) (r : http.Request)
    (status : Z) (msg : string) :
  headers_before_write (WritePureError status msg) = [] /\
  (headers_before_write (ServeHTTP Sprintf codec s r) = [] \/
   headers_before_write (ServeHTTP Sprintf codec s r)
     = [("x-content-type-options", "nosniff")] /\ invoked codec s r) /\
  (headers_before_write (ApiHandler U Sprintf codec s r) = [] \/
   headers_before_write (ApiHandler U Sprintf codec s r)
     = [("x-content-type-options", "nosniff")]).
Proof.
  assert (HS : forall r0,
    headers_before_write (ServeHTTP Sprintf codec s r0) = [] \/
    headers_before_write (ServeHTTP Sprintf codec s r0)
      = [("x-content-type-options", "nosniff")] /\ invoked codec s r0).
  { intros r0.
    destruct (ServeHTTP_cases s r0)
      as [H|[[e H]|[(key & e & H)|(key & svc & sm & args & w & H & Hw)]]].
    - left. rewrite H. reflexivity.
    - left. rewrite H. reflexivity.
    - left. rewrite H. reflexivity.
    - right. split.
      + rewrite H. destruct Hw as [[reply ->]|[e ->]]; reflexivity.
      + apply (nosniff_ServeHTTP Sprintf codec). rewrite H. do 2 right. left. }
  split; [reflexivity|]. split; [apply HS|].
  destruct (ApiHandler_cases s r)
    as [[key ->]|[[key ->]|(key & r' & -> & _)]]; [left; reflexivity..|].
  destruct (HS r') as [H|[H _]]; [left|right]; exact H.
Qed.

End ReplyProperties.

(** The GET of a method that fails on a registry without it. *)
Lemma ServeHTTP_errors_are_400_witness :
  (http.Method (Sample.request "GET" "EchoService.Missing") = "POST" \/
   http.Method (Sample.request "GET" "EchoService.Missing") = "GET") /\
  ServeHTTP Sample.sprintf Sample.codec Sample.server
    (Sample.request "GET" "EchoService.Missing")
  = [RegistryGet "EchoService.Missing";
     WriteError serverResponseJSON 400 (no_method "EchoService.Missing")].
Proof.
  assert (Hv : http.Method (Sample.request "GET" "EchoService.Missing") = "POST" \/
               http.Method (Sample.request "GET" "EchoService.Missing") = "GET")
    by (right; reflexivity).
  split; [exact Hv|].
  destruct (ServeHTTP_errors_are_400 Sample.sprintf Sample.codec Sample.server
              (Sample.request "GET" "EchoService.Missing") Hv) as (_ & Hget & _).
  apply (Hget "EchoService.Missing" (no_method "EchoService.Missing")).
  - reflexivity.
  - vm_compute. reflexivity.
Defined.

(** ** From registration to dispatch *)

Lemma ident_no_dot (s : string) : ascii_ident s = true -> no_dot s.
Proof.
  intros H. apply no_dot_Cut. revert H. unfold ascii_ident.
  induction s as [|c s IH]; [reflexivity|].
  change (bytes (String c s)) with (byte_of c :: bytes s). simpl.
  intros H. apply andb_true_iff in H as [Hc Hs].
  destruct (Ascii.eqb_spec c ".") as [->|_]; [discriminate Hc|].
  rewrite (IH Hs). reflexivity.
Qed.

Section Dispatch.

Variable U : unicode.Tables.
Variable TypeString : reflect.rtype -> string.
Variable Sprintf : string -> string -> string.
Variable codec : CodecRequest.

(** X14. From registration to reply. Let a service be registered under a
    name [n] without a dot, with a qualifying method whose name is an ASCII
    identifier that begins with a capital letter, and let any further
    operations follow. A GET or POST for "n.Method", or for the same with
    the first letter of the method in lower case, is then served by
    [ApiHandler]: with a codec that reads the name of the method from the
    context and decodes the arguments, the method of the receiver that was
    registered is called once, on the decoded arguments, the header
    [nosniff] is set, and the codec writes the reply, or the error of the
    method with status 400. *)
Theorem registered_method_is_served
    (m m' : serviceMap) (i : reflect.Interface_) (nm n : string)
    (mth : reflect.Method) (sm : serviceMethod) (ops : list op)
    (r : http.Request) (c first : ascii) (rest : string)
    (args reply : reflect.Value) (err : option error)
    (Hreg : register U TypeString m (Some i) nm = (m', Ok))
    (Hname : service_name U i nm = Some n)
    (Hdot : no_dot n)
    (Hnodup : NoDup (reflect.MName <$> reflect.methodset i))
    (Hin : mth ∈ reflect.methodset i)
    (Hsuit : suitable U mth = Some sm)
    (Hmname : reflect.MName mth = String c rest)
    (Hident : ascii_ident (String c rest) = true)
    (Hcap : unicode.between 65 90 (byte_of c) = true)
    (Hfirst : first = c \/ byte_of first = byte_of c + 32)
    (Hctx : http.ctx_method r = n +:+ "." +:+ String first rest)
    (Hverb : http.Method r = "POST" \/ http.Method r = "GET")
    (Hcodec : reads_context codec)
    (Hread : codec_ReadRequest codec
               (http.WithMethod r (n +:+ "." +:+ String c rest))
               (reflect.New (argsType sm)) = (args, None))
    (Hcall : reflect.MFunc mth (reflect.ValueOf i)
               (http.WithMethod r (n +:+ "." +:+ String c rest)) args
               (reflect.New (replyType sm)) = (reply, err)) :
  ApiHandler U Sprintf codec {| as_services := run U TypeString ops m' |} r =
    [RegistryGet (n +:+ "." +:+ String c rest);
     RegistryGet (n +:+ "." +:+ String c rest);
     Call n (String c rest) args;
     nosniff;
     match err with
     | None => WriteResponse (selected r) reply
     | Some e => WriteError (selected r) 400 e
     end].
Proof.
  set (key := n +:+ "." +:+ String c rest).
  set (Server := {| as_services := run U TypeString ops m' |}).
  (* the identifier is normalized to the registered key *)
  assert (Hrest : forallb ident_byte (bytes rest) = true).
  { unfold ascii_ident in Hident.
    change (bytes (String c rest)) with (byte_of c :: bytes rest) in Hident.
    simpl in Hident. apply andb_true_iff in Hident as [_ H]. exact H. }
  assert (Htitle : strings.Title U (String first rest) = String c rest).
  { unfold unicode.between in Hcap. apply andb_true_iff in Hcap as [Hc1 Hc2].
    apply Z.leb_le in Hc1, Hc2.
    destruct Hfirst as [->|Hf].
    - rewrite Title_ident by exact Hident.
      unfold unicode.between.
      destruct (Z.leb_spec 97 (byte_of c)); [lia|reflexivity].
    - rewrite Title_ident.
      + unfold unicode.between. rewrite Hf.
        destruct (Z.leb_spec 97 (byte_of c + 32)); [|lia].
        destruct (Z.leb_spec (byte_of c + 32) 122); [|lia]. simpl.
        replace (byte_of c + 32 - 32) with (byte_of c) by lia.
        rewrite of_byte_of. reflexivity.
      + unfold ascii_ident.
        change (bytes (String first rest)) with (byte_of first :: bytes rest).
        simpl. rewrite Hrest, andb_true_r, Hf.
        unfold ident_byte, unicode.between.
        destruct (Z.leb_spec 97 (byte_of c + 32)); [|lia].
        destruct (Z.leb_spec (byte_of c + 32) 122); [|lia].
        rewrite !orb_true_r. reflexivity. }
  assert (Hcut : strings.Cut (http.ctx_method r) "." = Some (n, String first rest)).
  { rewrite Hctx. change (n +:+ "." +:+ String first rest)
      with (n +:+ String "." (String first rest)).
    apply Cut_app. apply no_dot_Cut. exact Hdot. }
  assert (Hnorm : normalize U (http.ctx_method r) = key).
  { destruct (normalize_Cut U _ _ _ Hcut) as [_ ->]. rewrite Htitle. reflexivity. }
  assert (Hcont : strings.Contains (http.ctx_method r) "." = true).
  { apply Contains_Cut. eauto. }
  (* the key resolves to the entry that was stored *)
  destruct (register_Ok _ _ _ _ _ _ Hreg) as (i0 & n0 & [= <-] & Hn0 & _ & _ & ->).
  rewrite Hname in Hn0. injection Hn0 as <-.
  assert (Hl : lookup_service (as_services Server) n = Some (entry U i n)).
  { apply run_preserves. rewrite lookup_store. simpl.
    rewrite decide_True; reflexivity. }
  assert (Hget : get (as_services Server) key = inl (entry U i n, sm)).
  { unfold key. rewrite get_two_parts;
      [|exact Hdot|apply ident_no_dot; exact Hident].
    rewrite Hl. simpl. rewrite <- Hmname.
    rewrite collect_lookup by assumption. rewrite Hsuit. reflexivity. }
  rewrite (ApiHandler_dot _ _ _ _ _ Hcont), Hnorm.
  unfold HasMethod. rewrite Hget.
  destruct (suitable_Some _ _ _ Hsuit) as [Hm _].
  rewrite (ServeHTTP_invoked Sprintf codec Server (http.WithMethod r key) key
             (entry U i n) sm args reply err); [| | | |exact Hread|].
  - simpl. rewrite Hm, Hmname. reflexivity.
  - exact Hverb.
  - apply Hcodec.
  - exact Hget.
  - rewrite Hm. exact Hcall.
Qed.

End Dispatch.

(** The sample service answers [echoService]'s requests for "echo". *)
Lemma registered_method_is_served_witness :
  ApiHandler Sample.tables Sample.sprintf Sample.codec
    {| as_services :=
         run Sample.tables Sample.typeString
           [OpRegister (Some Sample.receiver) "Other"]
           (as_services Sample.server) |}
    (Sample.request "GET" "EchoService.echo")
  = [RegistryGet "EchoService.Echo"; RegistryGet "EchoService.Echo";
     Call "EchoService" "Echo"
       {| reflect.Type_ := reflect.PtrTo Sample.EchoArgs; reflect.IsNil := false;
          reflect.data := "{Value:x}" |};
     nosniff;
     WriteResponse serverResponseJSON
       {| reflect.Type_ := reflect.PtrTo Sample.EchoReply; reflect.IsNil := false;
          reflect.data := "{Value:x}" |}].
Proof.
  destruct (suitable Sample.tables Sample.Echo) as [sm|] eqn:Hs;
    [|vm_compute in Hs; discriminate].
  assert (Hsm : sm = {| method := Sample.Echo; argsType := Sample.EchoArgs;
                        replyType := Sample.EchoReply |})
    by (vm_compute in Hs; injection Hs as <-; reflexivity).
  apply (registered_method_is_served Sample.tables Sample.typeString
           Sample.sprintf Sample.codec new_serviceMap (as_services Sample.server)
           Sample.receiver "" "EchoService" Sample.Echo sm
           [OpRegister (Some Sample.receiver) "Other"]
           (Sample.request "GET" "EchoService.echo") "E" "e" "cho" _ _ None).
  - vm_compute. reflexivity.
  - reflexivity.
  - reflexivity.
  - apply (bool_decide_unpack _). vm_compute. exact I.
  - left.
  - exact Hs.
  - reflexivity.
  - reflexivity.
  - reflexivity.
  - right. reflexivity.
  - reflexivity.
  - right. reflexivity.
  - intros r. reflexivity.
  - rewrite Hsm. reflexivity.
  - rewrite Hsm. reflexivity.
Defined.
